(** * OONI / M-Lab measurement proxy: a shallow embedding of the backend

    The development follows the three Python modules of the backend:
    [ooni_client.py] (module [OONI]), [mlab_client.py] (module [MLab]) and
    [main.py] (module [Facade]).

    - Python values that come back from the network are modelled by a
      small JSON value type, with the dynamic checks of the operations the
      code applies to them ([in], indexing, iteration, [set.add],
      [sorted]).
    - Exceptions are explicit: an operation returns [Ok v] or [Raise e].
    - Every outbound call (an HTTP request, a query submitted to the
      warehouse) is appended to a log that is threaded through the
      operations, so that what is sent upstream, and whether anything is
      sent at all, can be stated.
    - The collaborators outside the repository are parameters: the HTTP
      transport, the BigQuery constructors and client, the process
      environment, the clock, and the framework's conversion of a raw
      query parameter to an integer.
    - Strings are byte strings that stand for ASCII text. *)

From Stdlib Require Import ZArith Lia Ascii DecimalString.
From stdpp Require Import base option list strings gmap sorting.

Local Open Scope Z_scope.
Set Warnings "-register-all".

(** ** Python-level preliminaries *)

Module Py.

(** Exceptions that the modelled code raises, catches or lets through. *)
Inductive exn :=
| HTTPStatusError (status : Z) (text : string)
| RequestError (msg : string)
| JSONDecodeError (msg : string)
| TypeError
| OverflowError
| GoogleCloudError (msg : string)
| DefaultCredentialsError (msg : string)
| PyException (msg : string).

Inductive result (A : Type) :=
| Ok (a : A)
| Raise (e : exn).
Arguments Ok {A} a.
Arguments Raise {A} e.

Definition is_ok {A} (r : result A) : bool :=
  match r with Ok _ => true | Raise _ => false end.

(** [str(n)] and [f"{n}"] for an [int]. *)
Definition str_of_int (n : Z) : string := NilZero.string_of_int (Z.to_int n).

(** [str(e)] for the exceptions above.  The text of an [HTTPStatusError]
    is never read by the code: every handler that sees one rebuilds its
    message from the status code and the body text. *)
Definition exn_str (e : exn) : string :=
  match e with
  | HTTPStatusError status text =>
      "HTTP status " +:+ str_of_int status +:+ ": " +:+ text
  | RequestError msg | JSONDecodeError msg | GoogleCloudError msg
  | DefaultCredentialsError msg | PyException msg => msg
  | TypeError => "TypeError"
  | OverflowError => "date value out of range"
  end.

(** Truth value of an [Optional[str]]: [None] and the empty string are
    falsy. *)
Definition truthy (o : option string) : bool :=
  match o with
  | Some s => negb (String.eqb s "")
  | None => false
  end.

(** [a or b] on [Optional[str]]. *)
Definition py_or (a b : option string) : option string :=
  if truthy a then a else b.

(** [str.upper], on ASCII text: the letters a-z are mapped to A-Z and every
    other byte is left alone. *)
Definition upper_char (c : ascii) : ascii :=
  let n := N_of_ascii c in
  if ((97 <=? n) && (n <=? 122))%N then ascii_of_N (n - 32) else c.

Fixpoint upper (s : string) : string :=
  match s with
  | String.EmptyString => String.EmptyString
  | String.String c s' => String.String (upper_char c) (upper s')
  end.

(** [s.startswith(pat)] *)
Fixpoint starts_with (pat s : string) : bool :=
  match pat, s with
  | String.EmptyString, _ => true
  | String.String _ _, String.EmptyString => false
  | String.String a pat', String.String b s' =>
      Ascii.eqb a b && starts_with pat' s'
  end.

(** [pat in s] for two strings: substring search. *)
Fixpoint is_substring (pat s : string) : bool :=
  starts_with pat s ||
  match s with
  | String.EmptyString => false
  | String.String _ s' => is_substring pat s'
  end.

(** Number of positions of [s] at which [pat] occurs. *)
Fixpoint occurrences (pat s : string) : nat :=
  match s with
  | String.EmptyString => 0%nat
  | String.String _ s' =>
      ((if starts_with pat s then 1 else 0) + occurrences pat s')%nat
  end.

(** Values produced by [json.loads]: [None], [bool], [int], [str], [list]
    and [dict].  A [dict] is kept as the list of its items, in insertion
    order; a key is looked up at its first binding.  JSON numbers are the
    integer literals. *)
Inductive json :=
| JNull
| JBool (b : bool)
| JInt (n : Z)
| JStr (s : string)
| JArr (l : list json)
| JObj (items : list (string * json)).

Abbreviation pydict := (list (string * json)).

Fixpoint dict_get (k : string) (d : pydict) : option json :=
  match d with
  | [] => None
  | (k', v) :: d' => if String.eqb k k' then Some v else dict_get k d'
  end.

Definition is_JStr (k : string) (v : json) : bool :=
  match v with JStr s => String.eqb k s | _ => false end.

(** [k in v] where [k] is a string: key membership for a dict, element
    membership for a list, substring search for a string, and a
    [TypeError] for [None], [bool] and [int]. *)
Definition py_in (k : string) (v : json) : result bool :=
  match v with
  | JObj items => Ok (bool_decide (is_Some (dict_get k items)))
  | JArr l => Ok (existsb (is_JStr k) l)
  | JStr s => Ok (is_substring k s)
  | JNull | JBool _ | JInt _ => Raise TypeError
  end.

(** [v[k]] where [k] is a string known to be a key when [v] is a dict:
    lists and strings only take integer indices. *)
Definition py_getitem (v : json) (k : string) : result json :=
  match v with
  | JObj items =>
      match dict_get k items with
      | Some x => Ok x
      | None => Raise (PyException "KeyError")
      end
  | _ => Raise TypeError
  end.

Fixpoint chars (s : string) : list json :=
  match s with
  | String.EmptyString => []
  | String.String c s' => JStr (String.String c String.EmptyString) :: chars s'
  end.

(** [for x in v]: the elements of a list, the keys of a dict, the
    characters of a string. *)
Definition py_iter (v : json) : result (list json) :=
  match v with
  | JArr l => Ok l
  | JObj items => Ok (map (fun kv => JStr (fst kv)) items)
  | JStr s => Ok (chars s)
  | JNull | JBool _ | JInt _ => Raise TypeError
  end.

#[global] Instance result_ret : MRet result := @Ok.
#[global] Instance result_bind : MBind result := fun A B k m =>
  match m with
  | Ok a => k a
  | Raise e => Raise e
  end.

(** *** Sets of hashable values and [sorted] *)

(** [list] and [dict] values cannot be put in a set. *)
Definition hashable (v : json) : bool :=
  match v with
  | JArr _ | JObj _ => false
  | _ => true
  end.

(** [bool] is a subtype of [int]: [True == 1] and [False == 0]. *)
Definition num_of (v : json) : option Z :=
  match v with
  | JBool b => Some (if b then 1 else 0)
  | JInt n => Some n
  | _ => None
  end.

Definition str_of (v : json) : option string :=
  match v with
  | JStr s => Some s
  | _ => None
  end.

(** [a == b] on hashable values. *)
Definition py_eq (a b : json) : bool :=
  match a, b with
  | JNull, JNull => true
  | JStr s, JStr t => String.eqb s t
  | _, _ =>
      match num_of a, num_of b with
      | Some x, Some y => x =? y
      | _, _ => false
      end
  end.

(** A [set] is kept as the list of its members, no two of them equal under
    [==].  [s.add(v)] keeps the member already present and raises a
    [TypeError] on an unhashable value.  The order of the list is not
    observable: the only consumer below is [sorted]. *)
Definition set_add (v : json) (s : list json) : result (list json) :=
  if hashable v
  then Ok (if existsb (py_eq v) s then s else s ++ [v])
  else Raise TypeError.

Definition num_le (a b : json) : Prop :=
  default 0 (num_of a) <= default 0 (num_of b).

#[global] Instance num_le_dec : RelDecision num_le.
Proof. intros a b. unfold num_le. apply _. Defined.

(** [sorted(s)] for a set [s]: strings are ordered by code point (which is
    the byte order of their UTF-8 text), numbers by value; comparing a
    string, a number and [None] with one another raises a [TypeError], and
    a set with a single member is returned without any comparison. *)
Definition py_sorted (s : list json) : result (list json) :=
  match mapM str_of s with
  | Some strs => Ok (JStr <$> merge_sort String.le strs)
  | None =>
      if forallb (fun v => bool_decide (is_Some (num_of v))) s
      then Ok (merge_sort num_le s)
      else match s with
           | [_] => Ok s
           | _ => Raise TypeError
           end
  end.

(** *** Operations with outbound calls

    An operation of a client runs against the log of the calls it has sent
    out so far (entries of type [L]), appends to it, and returns or
    raises. *)
Definition io (L A : Type) : Type := list L -> result A * list L.

Definition ret {L A} (a : A) : io L A := fun log => (Ok a, log).
Definition throw {L A} (e : exn) : io L A := fun log => (Raise e, log).
Definition bind {L A B} (m : io L A) (k : A -> io L B) : io L B :=
  fun log =>
    match m log with
    | (Ok a, log') => k a log'
    | (Raise e, log') => (Raise e, log')
    end.

(** [try: m  except Exception as e: handler e] *)
Definition try_except {L A} (m : io L A) (handler : exn -> io L A) : io L A :=
  fun log =>
    match m log with
    | (Ok a, log') => (Ok a, log')
    | (Raise e, log') => handler e log'
    end.

(** A step that sends nothing. *)
Definition lift {L A} (r : result A) : io L A := fun log => (r, log).

(** One outbound call, answered by [peer]. *)
Definition call {L A} (peer : L -> result A) (x : L) : io L A :=
  fun log => (peer x, log ++ [x]).

#[global] Instance io_ret {L} : MRet (io L) := @ret L.
#[global] Instance io_bind {L} : MBind (io L) := fun A B k m => bind m k.

End Py.
Export Py.

(** ** The censorship-measurement client ([ooni_client.py]) *)

Module OONI.

(** A value of the [params] dict handed to [httpx]. *)
Inductive param :=
| PInt (n : Z)
| PStr (s : string).

(** One outbound [GET]: the URL and the query parameters. *)
Record request := Request {
  req_url : string;
  req_params : gmap string param
}.

(** What comes back on the wire: a status code, the body text and the
    outcome of decoding the body as JSON ([response.json()]). *)
Record response := Response {
  status_code : Z;
  text : string;
  json_body : result json
}.

(** The transport behind [httpx.AsyncClient.get]: it answers a request or
    raises. *)
Definition transport := request -> result response.

(** Client operations run against the log of the requests sent so far. *)
Abbreviation http := (io request).

Record OONIClient := {
  base_url : string;
  api_base : string;
  client : transport
}.

(** [OONIClient.__init__]; the transport stands for the [httpx] client the
    constructor creates. *)
Definition init (net : transport) (base_url : string) : OONIClient :=
  {| base_url := base_url;
     api_base := base_url +:+ "/api/v1";
     client := net |}.

(** [await self.client.get(url, params=params)] *)
Definition client_get (self : OONIClient) (url : string)
    (params : gmap string param) : http response :=
  call (client self) (Request url params).

(** [response.raise_for_status()]: anything outside 2xx raises. *)
Definition raise_for_status (r : response) : http unit :=
  if (200 <=? status_code r) && (status_code r <=? 299)
  then mret tt
  else throw (HTTPStatusError (status_code r) (text r)).

(** [response.json()] *)
Definition response_json (r : response) : http json :=
  lift (json_body r).

(** [params[k] = v] guarded by [if v:]. *)
Definition set_if_truthy (k : string) (v : option string)
    (params : gmap string param) : gmap string param :=
  match v with
  | Some s => if truthy v then <[k := PStr s]> params else params
  | None => params
  end.

Definition get_measurements (self : OONIClient)
    (test_name probe_cc since until : option string)
    (limit offset : Z) : http json :=
  let params : gmap string param :=
    <["offset" := PInt offset]> (<["limit" := PInt (Z.min limit 1000)]> ∅) in
  let params := set_if_truthy "test_name" test_name params in
  let params := set_if_truthy "probe_cc" probe_cc params in
  let params := set_if_truthy "since" since params in
  let params := set_if_truthy "until" until params in
  try_except
    (response ← client_get self (api_base self +:+ "/measurements") params;
     _ ← raise_for_status response;
     response_json response)
    (fun e =>
       match e with
       | HTTPStatusError status text =>
           throw (PyException
                    ("HTTP error: " +:+ str_of_int status +:+ " - " +:+ text))
       | RequestError msg => throw (PyException ("Request error: " +:+ msg))
       | _ => throw e
       end).

Definition common_tests : list string :=
  [ "web_connectivity";
    "http_requests";
    "dns_consistency";
    "http_invalid_request_line";
    "bridge_reachability";
    "tcp_connect";
    "http_header_field_manipulation";
    "http_host";
    "multi_protocol_traceroute";
    "meek_fronted_requests_test";
    "whatsapp";
    "facebook_messenger";
    "telegram";
    "vanilla_tor";
    "stunreachability" ].

Definition get_test_names (self : OONIClient) : http (list string) :=
  try_except
    (response ← client_get self (api_base self +:+ "/measurements")
                   (<["limit" := PInt 1]> ∅);
     _ ← raise_for_status response;
     mret common_tests)
    (fun _ => mret common_tests).

Definition common_countries : list pydict :=
  [ [("code", JStr "US"); ("name", JStr "United States")];
    [("code", JStr "GB"); ("name", JStr "United Kingdom")];
    [("code", JStr "DE"); ("name", JStr "Germany")];
    [("code", JStr "FR"); ("name", JStr "France")];
    [("code", JStr "CN"); ("name", JStr "China")];
    [("code", JStr "RU"); ("name", JStr "Russia")];
    [("code", JStr "IR"); ("name", JStr "Iran")];
    [("code", JStr "IN"); ("name", JStr "India")];
    [("code", JStr "BR"); ("name", JStr "Brazil")];
    [("code", JStr "JP"); ("name", JStr "Japan")] ].

(** The [for measurement in data["results"]] loop of [get_countries]. *)
Fixpoint collect_probe_cc (measurements : list json)
    (countries_set : list json) : result (list json) :=
  match measurements with
  | [] => Ok countries_set
  | measurement :: rest =>
      has ← py_in "probe_cc" measurement;
      if has : bool
      then cc ← py_getitem measurement "probe_cc";
           countries_set' ← set_add cc countries_set;
           collect_probe_cc rest countries_set'
      else collect_probe_cc rest countries_set
  end.

(** [{"code": cc, "name": cc}] *)
Definition country_entry (cc : json) : pydict :=
  [("code", cc); ("name", cc)].

(** The [try] block of [get_countries]: [Some v] when the block executes
    [return v], [None] when it runs to its end without returning. *)
Definition get_countries_try (self : OONIClient)
    : http (option (list pydict)) :=
  response ← client_get self (api_base self +:+ "/measurements")
               (<["limit" := PInt 100]> ∅);
  _ ← raise_for_status response;
  data ← response_json response;
  has_results ← lift (py_in "results" data);
  if has_results : bool
  then results ← lift (py_getitem data "results");
       measurements ← lift (py_iter results);
       countries_set ← lift (collect_probe_cc measurements []);
       sorted_set ← lift (py_sorted countries_set);
       let countries := country_entry <$> sorted_set in
       mret (Some (take 50 countries))
  else mret None.

Definition get_countries (self : OONIClient) : http (list pydict) :=
  returned ← try_except (get_countries_try self) (fun _ => mret None);
  match returned with
  | Some countries => mret countries
  | None => mret common_countries
  end.

Definition get_measurement_details (self : OONIClient)
    (measurement_id : string) : http json :=
  try_except
    (response ← client_get self
                  (api_base self +:+ "/measurements/" +:+ measurement_id) ∅;
     _ ← raise_for_status response;
     response_json response)
    (fun e =>
       match e with
       | HTTPStatusError status text =>
           throw (PyException
                    ("HTTP error: " +:+ str_of_int status +:+ " - " +:+ text))
       | RequestError msg => throw (PyException ("Request error: " +:+ msg))
       | _ => throw e
       end).

End OONI.


(** ** The performance-measurement client ([mlab_client.py]) *)

Module MLab.

(** *** The clock and [strftime]

    [datetime.now()] is read from the environment.  Only its calendar date
    matters below, and it is kept as a proleptic Gregorian ordinal
    (1 is 0001-01-01), which is how [datetime - timedelta] computes. *)

Definition _MAXORDINAL : Z := 3652059.
Definition _DI400Y : Z := 146097.
Definition _DI100Y : Z := 36524.
Definition _DI4Y : Z := 1461.

Definition _DAYS_IN_MONTH (month : Z) : Z :=
  nth (Z.to_nat month) [-1; 31; 28; 31; 30; 31; 30; 31; 31; 30; 31; 30; 31] 0.

Definition _DAYS_BEFORE_MONTH (month : Z) : Z :=
  nth (Z.to_nat month)
      [-1; 0; 31; 59; 90; 120; 151; 181; 212; 243; 273; 304; 334] 0.

(** ordinal -> (year, month, day) *)
Definition _ord2ymd (n : Z) : Z * Z * Z :=
  let n := n - 1 in
  let n400 := n / _DI400Y in
  let n := n mod _DI400Y in
  let year := n400 * 400 + 1 in
  let n100 := n / _DI100Y in
  let n := n mod _DI100Y in
  let n4 := n / _DI4Y in
  let n := n mod _DI4Y in
  let n1 := n / 365 in
  let n := n mod 365 in
  let year := year + n100 * 100 + n4 * 4 + n1 in
  if (n1 =? 4) || (n100 =? 4)
  then (year - 1, 12, 31)
  else
    let leapyear := (n1 =? 3) && (negb (n4 =? 24) || (n100 =? 3)) in
    let month := Z.shiftr (n + 50) 5 in
    let preceding :=
      _DAYS_BEFORE_MONTH month + (if (2 <? month) && leapyear then 1 else 0) in
    let '(month, preceding) :=
      if n <? preceding
      then (month - 1,
            preceding - (_DAYS_IN_MONTH (month - 1)
                         + (if (month - 1 =? 2) && leapyear then 1 else 0)))
      else (month, preceding) in
    (year, month, n - preceding + 1).

Definition pad2 (n : Z) : string :=
  if n <? 10 then "0" +:+ str_of_int n else str_of_int n.

(** [d.strftime("%Y-%m-%d")] for the date with ordinal [n]; the year is
    printed in full (four digits from the year 1000 on). *)
Definition strftime_Ymd (n : Z) : string :=
  let '(year, month, day) := _ord2ymd n in
  str_of_int year +:+ "-" +:+ pad2 month +:+ "-" +:+ pad2 day.

(** [(datetime.now() - timedelta(days=1)).strftime("%Y-%m-%d")] where
    [now] is the ordinal of the call-time date.  The subtraction raises an
    [OverflowError] when it leaves the range of representable dates. *)
Definition yesterday_of (now : Z) : result string :=
  if (0 <? now - 1) && (now - 1 <=? _MAXORDINAL)
  then Ok (strftime_Ymd (now - 1))
  else Raise OverflowError.

(** *** The BigQuery client *)

(** [dict(row)] for a result row. *)
Abbreviation row := pydict.

(** A constructed [bigquery.Client]: [run_query q] stands for
    [client.query(q).result()] with every row converted to a dict. *)
Record bq_client := { run_query : string -> result (list row) }.

(** The two constructors of the BigQuery library,
    [Client.from_service_account_json(path, project=...)] and
    [Client(project=...)]; [Client()] is [Client(project=None)]. *)
Record bigquery := {
  from_service_account_json : string -> option string -> result bq_client;
  Client : option string -> result bq_client
}.

(** The process environment: [os.getenv] and [os.path.exists]. *)
Record os_env := {
  getenv : string -> option string;
  path_exists : string -> bool
}.

Record MLabClient := {
  project_id : option string;
  credentials_path : option string;
  client : bq_client
}.

(** [MLabClient.__init__] *)
Definition init (os : os_env) (bq : bigquery)
    (project_id credentials_path : option string) : result MLabClient :=
  let project_id := py_or project_id (getenv os "GOOGLE_CLOUD_PROJECT") in
  let credentials_path :=
    py_or credentials_path (getenv os "GOOGLE_APPLICATION_CREDENTIALS") in
  let first_attempt :=
    match credentials_path with
    | Some path =>
        if truthy credentials_path && path_exists os path
        then from_service_account_json bq path project_id
        else Client bq project_id
    | None => Client bq project_id
    end in
  match first_attempt with
  | Ok c => Ok {| project_id := project_id;
                  credentials_path := credentials_path;
                  client := c |}
  | Raise _ =>
      c ← Client bq None;
      mret {| project_id := project_id;
              credentials_path := credentials_path;
              client := c |}
  end.

(** Operations run against the log of the query texts submitted so far. *)
Abbreviation bqio := (io string).

(** The query text [_execute_query] submits for [query] and [limit]. *)
Definition with_limit (query : string) (limit : Z) : string :=
  if negb (is_substring "LIMIT" (upper query))
  then query +:+ " LIMIT " +:+ str_of_int limit
  else query.

Definition _execute_query (self : MLabClient) (query : string) (limit : Z)
    : bqio (list row) :=
  try_except
    (let query := with_limit query limit in
     call (run_query (client self)) query)
    (fun e =>
       match e with
       | GoogleCloudError _ =>
           throw (PyException ("BigQuery error: " +:+ exn_str e))
       | _ => throw (PyException ("Query execution error: " +:+ exn_str e))
       end).

(** A [float] argument is only ever formatted into the query text; it is
    kept as the text that [f"{x}"] prints for it. *)
Record pyfloat := { float_repr : string }.

(** The three pieces of the query template of [get_ndt_measurements],
    around the two [{}] holes. *)
Definition ndt_template_0 : string :=
"
        SELECT
            test_id,
            DATE(test_date) as test_date,
            client.Geo.CountryCode as country_code,
            client.Geo.CountryName as country_name,
            client.Geo.Region as region,
            server.Geo.CountryCode as server_country_code,
            download_speed_mbps,
            upload_speed_mbps,
            download_speed_mbps IS NOT NULL as has_download,
            upload_speed_mbps IS NOT NULL as has_upload,
            MINRTT,
            MeanRTT,
            server.Machine AS server_machine,
            client.IP AS client_ip,
            web100_log_entry.snap.Duration
        FROM
            `measurement-lab.ndt.unified_downloads`
        WHERE
            DATE(test_date) BETWEEN DATE('".
Definition ndt_template_1 : string :=
"') AND DATE('".
Definition ndt_template_2 : string :=
"')
        ".

(** [if x: query += f" AND client.Geo.CountryCode = '{x.upper()}'"] *)
Definition add_country_filter (country_code : option string)
    (query : string) : string :=
  match country_code with
  | Some cc =>
      if truthy country_code
      then query +:+ " AND client.Geo.CountryCode = '" +:+ upper cc +:+ "'"
      else query
  | None => query
  end.

Definition add_speed_filter (op : string) (speed : option pyfloat)
    (query : string) : string :=
  match speed with
  | Some x => query +:+ " AND download_speed_mbps " +:+ op +:+ " "
                    +:+ float_repr x
  | None => query
  end.

(** The query text [get_ndt_measurements] builds from the resolved dates
    and the filters. *)
Definition ndt_query (start_date end_date : string)
    (country_code : option string)
    (min_download_speed max_download_speed : option pyfloat) : string :=
  let query := ndt_template_0 +:+ start_date +:+ ndt_template_1
                 +:+ end_date +:+ ndt_template_2 in
  let query := add_country_filter country_code query in
  let query := add_speed_filter ">=" min_download_speed query in
  let query := add_speed_filter "<=" max_download_speed query in
  query +:+ " ORDER BY test_date DESC".

Definition get_ndt_measurements (self : MLabClient) (now : Z)
    (start_date end_date country_code : option string)
    (min_download_speed max_download_speed : option pyfloat)
    (limit : Z) : bqio pydict :=
  start_date ← (if negb (truthy start_date)
                then lift (yesterday_of now)
                else mret (default "" start_date));
  let end_date :=
    if negb (truthy end_date) then start_date else default "" end_date in
  let query := ndt_query start_date end_date country_code
                 min_download_speed max_download_speed in
  try_except
    (rows ← _execute_query self query limit;
     mret [ ("dataset", JStr "ndt.unified_downloads");
            ("count", JInt (Z.of_nat (length rows)));
            ("date_range", JObj [("start", JStr start_date);
                                 ("end", JStr end_date)]);
            ("results", JArr (JObj <$> rows)) ])
    (fun e =>
       throw (PyException ("Error fetching NDT measurements: " +:+ exn_str e))).

(** The three pieces of the query of [get_available_countries], around
    [{yesterday}] and [{limit}]. *)
Definition countries_template_0 : string :=
"
        SELECT DISTINCT
            client.Geo.CountryCode as country_code,
            client.Geo.CountryName as country_name
        FROM
            `measurement-lab.ndt.unified_downloads`
        WHERE
            DATE(test_date) = DATE('".
Definition countries_template_1 : string :=
"')
            AND client.Geo.CountryCode IS NOT NULL
        ORDER BY country_code
        LIMIT ".
Definition countries_template_2 : string :=
"
        ".

Definition fallback_countries : list row :=
  [ [("country_code", JStr "US"); ("country_name", JStr "United States")];
    [("country_code", JStr "GB"); ("country_name", JStr "United Kingdom")];
    [("country_code", JStr "DE"); ("country_name", JStr "Germany")] ].

(** The query text of [get_available_countries]. *)
Definition countries_query (yesterday : string) (limit : Z) : string :=
  countries_template_0 +:+ yesterday +:+ countries_template_1
    +:+ str_of_int limit +:+ countries_template_2.

Definition get_available_countries (self : MLabClient) (now : Z)
    (limit : Z) : bqio (list row) :=
  yesterday ← lift (yesterday_of now);
  let query := countries_query yesterday limit in
  try_except
    (rows ← _execute_query self query limit;
     mret rows)
    (fun _ => mret fallback_countries).

(** The three pieces of the query template of [get_statistics]. *)
Definition stats_template_0 : string :=
"
        SELECT
            COUNT(*) as total_tests,
            COUNTIF(download_speed_mbps IS NOT NULL) as tests_with_download,
            COUNTIF(upload_speed_mbps IS NOT NULL) as tests_with_upload,
            AVG(download_speed_mbps) as avg_download_mbps,
            AVG(upload_speed_mbps) as avg_upload_mbps,
            MIN(download_speed_mbps) as min_download_mbps,
            MAX(download_speed_mbps) as max_download_mbps,
            APPROX_QUANTILES(download_speed_mbps, 100)[OFFSET(50)] as median_download_mbps
        FROM
            `measurement-lab.ndt.unified_downloads`
        WHERE
            DATE(test_date) BETWEEN DATE('".
Definition stats_template_1 : string :=
"') AND DATE('".
Definition stats_template_2 : string :=
"')
        ".

(** The query text [get_statistics] builds from the resolved dates and
    the country filter. *)
Definition stats_query (start_date end_date : string)
    (country_code : option string) : string :=
  let query := stats_template_0 +:+ start_date +:+ stats_template_1
                 +:+ end_date +:+ stats_template_2 in
  add_country_filter country_code query.

Definition get_statistics (self : MLabClient) (now : Z)
    (start_date end_date country_code : option string) : bqio pydict :=
  start_date ← (if negb (truthy start_date)
                then lift (yesterday_of now)
                else mret (default "" start_date));
  let end_date :=
    if negb (truthy end_date) then start_date else default "" end_date in
  let query := stats_query start_date end_date country_code in
  try_except
    (rows ← _execute_query self query 1;
     match rows with
     | first :: _ => mret first
     | [] => mret []
     end)
    (fun e =>
       throw (PyException ("Error fetching statistics: " +:+ exn_str e))).

(** The two pieces of the query of [get_measurement_by_id], around
    [{test_id}]. *)
Definition by_id_template_0 : string :=
"
        SELECT
            *
        FROM
            `measurement-lab.ndt.unified_downloads`
        WHERE
            test_id = '".
Definition by_id_template_1 : string :=
"'
        LIMIT 1
        ".

(** The query text of [get_measurement_by_id]. *)
Definition by_id_query (test_id : string) : string :=
  by_id_template_0 +:+ test_id +:+ by_id_template_1.

Definition get_measurement_by_id (self : MLabClient) (test_id : string)
    : bqio pydict :=
  let query := by_id_query test_id in
  try_except
    (rows ← _execute_query self query 1;
     match rows with
     | first :: _ => mret first
     | [] => mret []
     end)
    (fun e =>
       throw (PyException ("Error fetching measurement: " +:+ exn_str e))).

End MLab.

(** ** The HTTP facade ([main.py]) *)

Module Facade.

(** What the web framework sends back for a request. *)
Inductive reply :=
| Success (body : json)
| ValidationError (parameter : string)
| HTTPException (status_code : Z) (detail : string).

Definition reply_status (r : reply) : Z :=
  match r with
  | Success _ => 200
  | ValidationError _ => 422
  | HTTPException status_code _ => status_code
  end.

Definition is_client_error (r : reply) : bool :=
  (400 <=? reply_status r) && (reply_status r <=? 499).

(** The declaration [Query(default, ge=..., le=...)] of an [int] query
    parameter. *)
Record int_query := Query {
  q_default : Z;
  ge : option Z;
  le : option Z
}.

Definition within (decl : int_query) (n : Z) : bool :=
  match ge decl with Some lo => lo <=? n | None => true end &&
  match le decl with Some hi => n <=? hi | None => true end.

(** The query string of an inbound [GET /api/v1/measurements]: each
    parameter is absent or carries its raw text. *)
Record raw_query := {
  raw_test_name : option string;
  raw_probe_cc : option string;
  raw_since : option string;
  raw_until : option string;
  raw_limit : option string;
  raw_offset : option string
}.

Section routes.

(** The framework's conversion of a raw parameter to an [int]. *)
Variable parse_int : string -> option Z.

(** The process-wide [ooni_client = OONIClient()]. *)
Variable ooni_client : OONI.OONIClient.

(** Validation of an [int] parameter by the framework, before the handler
    runs: an absent parameter takes the default, a present one has to
    parse and to satisfy the declared bounds. *)
Definition validate_int (decl : int_query) (raw : option string) : option Z :=
  match raw with
  | None => Some (q_default decl)
  | Some s =>
      match parse_int s with
      | Some n => if within decl n then Some n else None
      | None => None
      end
  end.

Definition limit_decl : int_query := Query 100 (Some 1) (Some 1000).
Definition offset_decl : int_query := Query 0 (Some 0) None.

(** The handler [get_measurements] of the route; [raise HTTPException]
    becomes the reply the framework makes of it. *)
Definition get_measurements
    (test_name probe_cc since until : option string) (limit offset : Z)
    : OONI.http reply :=
  try_except
    (measurements ← OONI.get_measurements ooni_client
                      test_name probe_cc since until limit offset;
     mret (Success measurements))
    (fun e =>
       mret (HTTPException 500
               ("Error fetching measurements: " +:+ exn_str e))).

(** [GET /api/v1/measurements]: validation, then the handler. *)
Definition route_measurements (q : raw_query) : OONI.http reply :=
  match validate_int limit_decl (raw_limit q) with
  | None => mret (ValidationError "limit")
  | Some limit =>
      match validate_int offset_decl (raw_offset q) with
      | None => mret (ValidationError "offset")
      | Some offset =>
          get_measurements (raw_test_name q) (raw_probe_cc q)
                           (raw_since q) (raw_until q) limit offset
      end
  end.

(** The handler of [GET /api/v1/tests]. *)
Definition get_available_tests : OONI.http reply :=
  try_except
    (tests ← OONI.get_test_names ooni_client;
     mret (Success (JObj [("tests", JArr (JStr <$> tests))])))
    (fun e =>
       mret (HTTPException 500 ("Error fetching tests: " +:+ exn_str e))).

(** The handler of [GET /api/v1/countries]. *)
Definition get_countries : OONI.http reply :=
  try_except
    (countries ← OONI.get_countries ooni_client;
     mret (Success (JObj [("countries", JArr (JObj <$> countries))])))
    (fun e =>
       mret (HTTPException 500 ("Error fetching countries: " +:+ exn_str e))).

End routes.

End Facade.

(** ** Notions used to state the properties *)

(** [x] clamped to the range from [lo] to [hi]. *)
Definition clamp (lo hi x : Z) : Z := Z.max lo (Z.min x hi).

(** The [limit] parameter of every request of a log. *)
Definition sent_limits (log : list OONI.request) : list (option OONI.param) :=
  (fun r => OONI.req_params r !! "limit") <$> log.

(** A raw [limit] that is not an integer from 1 to 1000: the parameter is
    present, and its text is no integer or an integer below 1 or above
    1000. *)
Definition bad_limit (parse_int : string -> option Z)
    (raw : option string) : Prop :=
  exists s, raw = Some s /\
    match parse_int s with
    | Some n => n < 1 \/ 1000 < n
    | None => True
    end.

(** A raw [offset] that is not a non-negative integer. *)
Definition bad_offset (parse_int : string -> option Z)
    (raw : option string) : Prop :=
  exists s, raw = Some s /\
    match parse_int s with
    | Some n => n < 0
    | None => True
    end.

(** A raw [limit] that stands for the integer [n] from 1 to 1000, or is
    absent with [n] the default 100; likewise an [offset] that stands for
    a non-negative [n], or is absent with [n] the default 0. *)
Definition good_limit (parse_int : string -> option Z)
    (raw : option string) (n : Z) : Prop :=
  match raw with
  | Some s => parse_int s = Some n /\ 1 <= n <= 1000
  | None => n = 100
  end.

Definition good_offset (parse_int : string -> option Z)
    (raw : option string) (n : Z) : Prop :=
  match raw with
  | Some s => parse_int s = Some n /\ 0 <= n
  | None => n = 0
  end.

(** A reader of decimal numerals, as an instance of the framework's
    conversion. *)
Definition parse_decimal (s : string) : option Z :=
  match NilZero.int_of_string s with
  | Some d => Some (Z.of_int d)
  | None => None
  end.

(** The one request [get_countries] sends. *)
Definition countries_request (self : OONI.OONIClient) : OONI.request :=
  OONI.Request (OONI.api_base self +:+ "/measurements")
               (<["limit" := OONI.PInt 100]> ∅).

Definition is_2xx (r : OONI.response) : bool :=
  (200 <=? OONI.status_code r) && (OONI.status_code r <=? 299).

(** The upstream call for [req] succeeds with the parsed body [data]. *)
Definition upstream_returns (self : OONI.OONIClient) (req : OONI.request)
    (data : json) : Prop :=
  exists r, OONI.client self req = Ok r /\ is_2xx r = true /\
            OONI.json_body r = Ok data.

(** The upstream call for [req] raises: the transport fails, the status is
    outside 2xx, or the body does not parse. *)
Definition upstream_raises (self : OONI.OONIClient) (req : OONI.request)
    : Prop :=
  match OONI.client self req with
  | Raise _ => True
  | Ok r => is_2xx r = false \/ is_ok (OONI.json_body r) = false
  end.

(** A measurement record: an object whose [probe_cc] field, when it has
    one, is a string. *)
Definition measurement_record (m : json) : Prop :=
  exists fields, m = JObj fields /\
    match dict_get "probe_cc" fields with
    | Some v => is_Some (str_of v)
    | None => True
    end.

(** The country code [cc] is the [probe_cc] of some measurement. *)
Definition observed (cc : string) (measurements : list json) : Prop :=
  exists fields, JObj fields ∈ measurements /\
                 dict_get "probe_cc" fields = Some (JStr cc).

(** A measurement without a [probe_cc] field. *)
Definition lacks_probe_cc (m : json) : Prop :=
  exists fields, m = JObj fields /\ dict_get "probe_cc" fields = None.

(** The measurement is kept by the loop of [get_countries]: it is not an
    object without a [probe_cc] field. *)
Definition has_probe_cc (m : json) : bool :=
  match m with
  | JObj fields => bool_decide (is_Some (dict_get "probe_cc" fields))
  | _ => true
  end.

(** The entry [{"code": cc, "name": cc}] of a country code. *)
Definition code_entry (cc : string) : pydict :=
  [("code", JStr cc); ("name", JStr cc)].

(** The key file the constructor of the M-Lab client settles on: the
    configured path, when there is one and the file exists. *)
Definition key_file (os : MLab.os_env) (credentials_path : option string)
    : option string :=
  let path :=
    py_or credentials_path (MLab.getenv os "GOOGLE_APPLICATION_CREDENTIALS") in
  match path with
  | Some p => if truthy path && MLab.path_exists os p then Some p else None
  | None => None
  end.

(** The first construction the constructor tries. *)
Definition first_attempt (os : MLab.os_env) (bq : MLab.bigquery)
    (project_id credentials_path : option string) : result MLab.bq_client :=
  let project := py_or project_id (MLab.getenv os "GOOGLE_CLOUD_PROJECT") in
  match key_file os credentials_path with
  | Some p => MLab.from_service_account_json bq p project
  | None => MLab.Client bq project
  end.

(** The date defaulting rule: an absent start date is the day before the
    call-time date, an absent end date is the start date. *)
Definition resolve_dates (now : Z) (start_date end_date : option string)
    : string * string :=
  let start :=
    match start_date with
    | Some s => s
    | None => MLab.strftime_Ymd (now - 1)
    end in
  let stop :=
    match end_date with
    | Some e => e
    | None => start
    end in
  (start, stop).

(** The dates the code settles on: it takes an empty string like an
    absent date. *)
Definition settled_dates (now : Z) (start_date end_date : option string)
    : string * string :=
  let start :=
    if truthy start_date then default "" start_date
    else MLab.strftime_Ymd (now - 1) in
  let stop := if truthy end_date then default "" end_date else start in
  (start, stop).

(** The codes and names of a list of country dicts, read at the keys
    [code_key] and [name_key]. *)
Definition codes_and_names (code_key name_key : string)
    (countries : list pydict) : list (option json * option json) :=
  (fun d => (dict_get code_key d, dict_get name_key d)) <$> countries.

(** A character other than the letters of LIMIT. *)
Definition clear_char (c : ascii) : bool :=
  negb (Ascii.eqb c "L" || Ascii.eqb c "I" || Ascii.eqb c "M" || Ascii.eqb c "T").

(** The text starts, or ends, with a character that cannot be part of an
    occurrence of LIMIT. *)
Definition starts_clear (s : string) : bool :=
  match s with
  | String.EmptyString => false
  | String.String c _ => clear_char c
  end.

Fixpoint ends_clear (s : string) : bool :=
  match s with
  | String.EmptyString => false
  | String.String c String.EmptyString => clear_char c
  | String.String _ s' => ends_clear s'
  end.

(** The text has no LIMIT token, in any letter case. *)
Definition limit_free (s : string) : Prop :=
  occurrences "LIMIT" (upper s) = 0%nat.

(** The text is ASCII. *)
Fixpoint ascii_text (s : string) : bool :=
  match s with
  | String.EmptyString => true
  | String.String c s' => (N_of_ascii c <? 128)%N && ascii_text s'
  end.

(** A string argument of the caller that is absent, or is ASCII text
    without a LIMIT token. *)
Definition plain_input (o : option string) : Prop :=
  match o with
  | Some s => ascii_text s = true /\ limit_free s
  | None => True
  end.

(** The text has no letter l, small or capital. *)
Fixpoint no_L (s : string) : bool :=
  match s with
  | String.EmptyString => true
  | String.String c s' =>
      negb (Ascii.eqb c "L" || Ascii.eqb c "l") && no_L s'
  end.

Definition limit_free_float (o : option MLab.pyfloat) : Prop :=
  match o with
  | Some x => limit_free (MLab.float_repr x)
  | None => True
  end.

(** The query parameter a filter argument turns into: none when the
    argument is absent or empty. *)
Definition filter_param (v : option string) : option OONI.param :=
  if truthy v then OONI.PStr <$> v else None.

(** The exception is one of the two [httpx] errors the client handles. *)
Definition is_httpx_error (e : exn) : bool :=
  match e with
  | HTTPStatusError _ _ | RequestError _ => true
  | _ => false
  end.

(** Processing the measurement in the loop of [get_countries] raises: it
    is [None], a [bool] or an [int]; a string or a list that has
    "probe_cc" in it; or an object whose [probe_cc] is a list or an
    object. *)
Definition malformed (m : json) : bool :=
  match m with
  | JNull | JBool _ | JInt _ => true
  | JStr s => is_substring "probe_cc" s
  | JArr l => existsb (is_JStr "probe_cc") l
  | JObj fields =>
      match dict_get "probe_cc" fields with
      | Some v => negb (hashable v)
      | None => false
      end
  end.

(** The value [v] is the [probe_cc] of some measurement object. *)
Definition observed_value (v : json) (measurements : list json) : Prop :=
  exists fields, JObj fields ∈ measurements /\
                 dict_get "probe_cc" fields = Some v.

(** The message of the exception [_execute_query] raises for the failure
    [e] of the query. *)
Definition execute_query_message (e : exn) : string :=
  match e with
  | GoogleCloudError msg => "BigQuery error: " +:+ msg
  | _ => "Query execution error: " +:+ exn_str e
  end.

(** * Properties *)

(** ** The limit sent upstream *)

Section limits.

Lemma lookup_set_if_truthy k v (params : gmap string OONI.param) k' :
  k <> k' -> OONI.set_if_truthy k v params !! k' = params !! k'.
Proof.
  intros Hne. unfold OONI.set_if_truthy.
  destruct v as [s|]; [|done].
  destruct (truthy (Some s)); [|done].
  by rewrite lookup_insert_ne.
Qed.

(** [get_measurements] sends exactly one request, whatever the outcome,
    and that request carries [min(limit, 1000)] and the offset. *)
Lemma get_measurements_log self test_name probe_cc since until limit offset log :
  exists req,
    snd (OONI.get_measurements self test_name probe_cc since until
           limit offset log) = log ++ [req] /\
    OONI.req_url req = OONI.api_base self +:+ "/measurements" /\
    OONI.req_params req !! "limit" = Some (OONI.PInt (Z.min limit 1000)) /\
    OONI.req_params req !! "offset" = Some (OONI.PInt offset).
Proof.
  eexists. split.
  - unfold OONI.get_measurements, try_except, mbind, io_bind, bind,
      OONI.client_get, call.
    destruct (OONI.client self _) as [r|e]; simpl.
    + unfold OONI.raise_for_status.
      destruct (_ && _); simpl.
      * unfold OONI.response_json, lift.
        destruct (OONI.json_body r) as [?|[]]; reflexivity.
      * reflexivity.
    + destruct e; reflexivity.
  - simpl. split; [done|].
    rewrite !lookup_set_if_truthy by done.
    split.
    + rewrite lookup_insert_ne by done. by rewrite lookup_insert_eq.
    + by rewrite lookup_insert_eq.
Qed.

(** [_execute_query] submits exactly one query text, [with_limit]. *)
Lemma execute_query_log self query limit log :
  snd (MLab._execute_query self query limit log)
    = log ++ [MLab.with_limit query limit].
Proof.
  unfold MLab._execute_query, try_except, call.
  destruct (MLab.run_query _ _) as [rows|e]; [done|]. by destruct e.
Qed.

(** C1, as amended: the [limit] query parameter that
    [OONIClient.get_measurements] sends is [min(limit, 1000)] - capped at
    1000 from above and not raised to 1 from below - and
    [MLabClient._execute_query] submits the query followed by the caller's
    limit, unchanged, when the query has no LIMIT token, and the query as
    it stands otherwise. *)
Theorem limit_sent_upstream self test_name probe_cc since until limit offset
    log mlab query qlog :
  sent_limits (snd (OONI.get_measurements self test_name probe_cc since until
                      limit offset log))
    = sent_limits log ++ [Some (OONI.PInt (Z.min limit 1000))] /\
  snd (MLab._execute_query mlab query limit qlog)
    = qlog ++ [if is_substring "LIMIT" (upper query) then query
               else query +:+ " LIMIT " +:+ str_of_int limit].
Proof.
  split.
  - destruct (get_measurements_log self test_name probe_cc since until
                limit offset log) as (req & -> & _ & Hl & _).
    unfold sent_limits. rewrite fmap_app. simpl. by rewrite Hl.
  - rewrite execute_query_log. unfold MLab.with_limit.
    by destruct (is_substring _ _).
Qed.

(** C1, as stated, fails: a limit of 0 is sent as 0 by the OONI client,
    and a limit of 5000 is appended as 5000 by the M-Lab client. *)
Lemma limit_not_clamped :
  let self := OONI.init (fun _ => Raise (RequestError "unreachable"))
                        "https://api.ooni.io" in
  let mlab := {| MLab.project_id := None; MLab.credentials_path := None;
                 MLab.client := {| MLab.run_query := fun _ => Ok [] |} |} in
  sent_limits (snd (OONI.get_measurements self None None None None 0 0 []))
    = [Some (OONI.PInt 0)] /\
  sent_limits (snd (OONI.get_measurements self None None None None 0 0 []))
    <> [Some (OONI.PInt (clamp 1 1000 0))] /\
  snd (MLab._execute_query mlab "SELECT 1" 5000 []) = ["SELECT 1 LIMIT 5000"] /\
  snd (MLab._execute_query mlab "SELECT 1" 5000 [])
    <> ["SELECT 1 LIMIT " +:+ str_of_int (clamp 1 1000 5000)].
Proof. vm_compute. repeat split; discriminate. Qed.

End limits.

(** ** Validation at the facade *)

Section facade.

Variable parse_int : string -> option Z.
Variable ooni_client : OONI.OONIClient.

Lemma validate_bad_limit raw :
  bad_limit parse_int raw ->
  Facade.validate_int parse_int Facade.limit_decl raw = None.
Proof.
  intros (s & -> & H). simpl.
  destruct (parse_int s) as [n|]; [|done].
  unfold Facade.within. simpl.
  destruct (Z.leb_spec 1 n), (Z.leb_spec n 1000); simpl; try done; lia.
Qed.

Lemma validate_bad_offset raw :
  bad_offset parse_int raw ->
  Facade.validate_int parse_int Facade.offset_decl raw = None.
Proof.
  intros (s & -> & H). simpl.
  destruct (parse_int s) as [n|]; [|done].
  unfold Facade.within. simpl.
  destruct (Z.leb_spec 0 n); simpl; try done; lia.
Qed.

Lemma validate_good_limit raw n :
  good_limit parse_int raw n ->
  Facade.validate_int parse_int Facade.limit_decl raw = Some n.
Proof.
  destruct raw as [s|]; simpl; [|by intros ->].
  intros [-> H]. unfold Facade.within. simpl.
  destruct (Z.leb_spec 1 n), (Z.leb_spec n 1000); simpl; try done; lia.
Qed.

Lemma validate_good_offset raw n :
  good_offset parse_int raw n ->
  Facade.validate_int parse_int Facade.offset_decl raw = Some n.
Proof.
  destruct raw as [s|]; simpl; [|by intros ->].
  intros [-> H]. unfold Facade.within. simpl.
  destruct (Z.leb_spec 0 n); simpl; try done; lia.
Qed.

(** A request that passes validation reaches the client: one request is
    sent upstream. *)
Lemma valid_query_forwarded q limit offset log :
  Facade.validate_int parse_int Facade.limit_decl (Facade.raw_limit q)
    = Some limit ->
  Facade.validate_int parse_int Facade.offset_decl (Facade.raw_offset q)
    = Some offset ->
  exists req,
    snd (Facade.route_measurements parse_int ooni_client q log) = log ++ [req]
    /\ OONI.req_params req !! "limit" = Some (OONI.PInt limit).
Proof.
  intros Hl Ho. unfold Facade.route_measurements. rewrite Hl, Ho.
  destruct (get_measurements_log ooni_client (Facade.raw_test_name q)
              (Facade.raw_probe_cc q) (Facade.raw_since q)
              (Facade.raw_until q) limit offset log)
    as (req & Hlog & _ & Hlim & _).
  exists req. split.
  - unfold Facade.get_measurements, try_except, mbind, io_bind, bind.
    destruct (OONI.get_measurements _ _ _ _ _ _ _ _) as [[?|?] ?]; exact Hlog.
  - rewrite Hlim. do 2 f_equal.
    unfold Facade.validate_int in Hl.
    destruct (Facade.raw_limit q) as [s|].
    + destruct (parse_int s) as [n|]; [|done].
      destruct (Facade.within _ n) eqn:Hw; [|done].
      injection Hl as ->. unfold Facade.within in Hw. simpl in Hw. lia.
    + injection Hl as <-. done.
Qed.

(** The bounds are exactly these: a [limit] from 1 to 1000 (or none, for
    100) with an [offset] from 0 on (or none, for 0) is not refused - one
    request goes upstream with these two values, and the reply is no
    client error. *)
Lemma in_range_query_forwarded q limit offset log :
  good_limit parse_int (Facade.raw_limit q) limit ->
  good_offset parse_int (Facade.raw_offset q) offset ->
  exists req r,
    Facade.route_measurements parse_int ooni_client q log
      = (Ok r, log ++ [req]) /\
    OONI.req_params req !! "limit" = Some (OONI.PInt limit) /\
    OONI.req_params req !! "offset" = Some (OONI.PInt offset) /\
    Facade.is_client_error r = false.
Proof.
  intros Hl Ho.
  assert (Hmin : Z.min limit 1000 = limit).
  { destruct (Facade.raw_limit q); simpl in Hl; lia. }
  unfold Facade.route_measurements.
  rewrite (validate_good_limit _ _ Hl), (validate_good_offset _ _ Ho).
  destruct (get_measurements_log ooni_client (Facade.raw_test_name q)
              (Facade.raw_probe_cc q) (Facade.raw_since q)
              (Facade.raw_until q) limit offset log)
    as (req & Hlog & _ & Hlim & Hoff).
  rewrite Hmin in Hlim.
  unfold Facade.get_measurements, try_except, mbind, io_bind, bind.
  destruct (OONI.get_measurements _ _ _ _ _ _ _ _) as [[data|e] log'];
    simpl in Hlog; subst log'; exists req; eexists; by repeat split.
Qed.

End facade.

(** C2: a request to [GET /api/v1/measurements] whose [limit] is not an
    integer from 1 to 1000 (its text is no integer, or an integer below 1
    or above 1000), or whose [offset] is not a non-negative integer, is
    answered with a client error (status 422), and the log of upstream
    requests is left as it was: [OONIClient.get_measurements], which
    always sends a request, has not run. *)
Theorem invalid_query_rejected parse_int ooni_client q log :
  bad_limit parse_int (Facade.raw_limit q) \/
  bad_offset parse_int (Facade.raw_offset q) ->
  exists r,
    Facade.route_measurements parse_int ooni_client q log = (Ok r, log) /\
    Facade.is_client_error r = true /\
    Facade.reply_status r = 422.
Proof.
  intros [H|H]; unfold Facade.route_measurements.
  - rewrite (validate_bad_limit _ _ H). by eexists.
  - destruct (Facade.validate_int _ Facade.limit_decl _).
    + rewrite (validate_bad_offset _ _ H). by eexists.
    + by eexists.
Qed.

Lemma invalid_query_rejected_witness :
  let q := {| Facade.raw_test_name := None; Facade.raw_probe_cc := Some "US";
              Facade.raw_since := None; Facade.raw_until := None;
              Facade.raw_limit := Some "1001";
              Facade.raw_offset := None |} in
  let ooni_client := OONI.init (fun _ => Raise (RequestError "unreachable"))
                               "https://api.ooni.io" in
  exists r,
    Facade.route_measurements parse_decimal ooni_client q [] = (Ok r, []) /\
    Facade.is_client_error r = true /\
    Facade.reply_status r = 422.
Proof.
  intros q ooni_client.
  apply (invalid_query_rejected parse_decimal ooni_client q []).
  left. exists "1001". split; [reflexivity|]. vm_compute. by right.
Defined.

(** The edges of the two ranges, with a reader of decimal numerals: 0 and
    1001 are refused as [limit], -1 as [offset]; 1 and 1000 go
    upstream. *)
Example limit_and_offset_edges :
  let ooni_client := OONI.init (fun _ => Raise (RequestError "unreachable"))
                               "https://api.ooni.io" in
  let run limit offset :=
    Facade.route_measurements parse_decimal ooni_client
      {| Facade.raw_test_name := None; Facade.raw_probe_cc := None;
         Facade.raw_since := None; Facade.raw_until := None;
         Facade.raw_limit := limit; Facade.raw_offset := offset |} [] in
  run (Some "0") None = (Ok (Facade.ValidationError "limit"), []) /\
  run (Some "1001") None = (Ok (Facade.ValidationError "limit"), []) /\
  run (Some "abc") None = (Ok (Facade.ValidationError "limit"), []) /\
  run None (Some "-1") = (Ok (Facade.ValidationError "offset"), []) /\
  sent_limits (snd (run (Some "1") (Some "0"))) = [Some (OONI.PInt 1)] /\
  sent_limits (snd (run (Some "1000") None)) = [Some (OONI.PInt 1000)] /\
  sent_limits (snd (run None None)) = [Some (OONI.PInt 100)].
Proof. vm_compute. repeat split. Qed.

(** ** Test names and countries of the OONI client *)

(** C9: [get_test_names] returns the hardcoded catalog of 15 test names,
    in the same order, whatever the transport does with its single probe
    request (a 2xx answer, another status, or a raised error); the probe
    is sent and its outcome is dropped. *)
Theorem get_test_names_fixed self log :
  OONI.get_test_names self log
    = (Ok OONI.common_tests,
       log ++ [OONI.Request (OONI.api_base self +:+ "/measurements")
                            (<["limit" := OONI.PInt 1]> ∅)]) /\
  length OONI.common_tests = 15%nat.
Proof.
  split; [|reflexivity].
  unfold OONI.get_test_names, try_except, mbind, io_bind, bind,
    OONI.client_get, call.
  destruct (OONI.client self _) as [r|e]; simpl; [|done].
  unfold OONI.raise_for_status. by destruct (_ && _).
Qed.

Section countries.

Variable self : OONI.OONIClient.

(** The [try] block of [get_countries] sends the one request and stops at
    the first step that raises. *)
Lemma get_countries_sends log :
  snd (OONI.get_countries self log) = log ++ [countries_request self].
Proof.
  unfold OONI.get_countries, OONI.get_countries_try, try_except, mbind,
    io_bind, bind, OONI.client_get, call, OONI.response_json, lift.
  fold (countries_request self).
  destruct (OONI.client self _) as [r|e]; simpl; [|done].
  unfold OONI.raise_for_status.
  destruct (_ && _); simpl; [|done].
  destruct (OONI.json_body r) as [data|]; simpl; [|done].
  destruct (py_in "results" data) as [[]|]; simpl; [|done..].
  destruct (py_getitem data "results") as [results|]; simpl; [|done].
  destruct (py_iter results) as [ms|]; simpl; [|done].
  destruct (OONI.collect_probe_cc _ _) as [cs|]; simpl; [|done].
  by destruct (py_sorted cs).
Qed.

Lemma get_countries_try_raises log :
  upstream_raises self (countries_request self) ->
  exists e, fst (OONI.get_countries_try self log) = Raise e.
Proof.
  unfold upstream_raises, OONI.get_countries_try, mbind, io_bind, bind,
    OONI.client_get, call, OONI.response_json, lift.
  fold (countries_request self).
  destruct (OONI.client self _) as [r|e]; simpl; [|by eauto].
  unfold OONI.raise_for_status, is_2xx.
  destruct (_ && _); simpl; [|by eauto].
  intros [?|H]; [done|].
  destruct (OONI.json_body r); [done|]. simpl. by eauto.
Qed.

Lemma get_countries_of_try log :
  fst (OONI.get_countries self log) =
    match fst (OONI.get_countries_try self log) with
    | Ok (Some countries) => Ok countries
    | _ => Ok OONI.common_countries
    end.
Proof.
  unfold OONI.get_countries, try_except, mbind, io_bind, bind.
  destruct (OONI.get_countries_try self log) as [[[c|]|e] log']; done.
Qed.

(** What the [try] block does once the upstream call has returned
    [data]. *)
Lemma get_countries_try_returns log data :
  upstream_returns self (countries_request self) data ->
  fst (OONI.get_countries_try self log) =
    (has_results ← py_in "results" data;
     if has_results : bool
     then results ← py_getitem data "results";
          measurements ← py_iter results;
          countries_set ← OONI.collect_probe_cc measurements [];
          sorted_set ← py_sorted countries_set;
          mret (Some (take 50 (OONI.country_entry <$> sorted_set)))
     else mret None).
Proof.
  intros (r & Hr & H2 & Hj).
  unfold OONI.get_countries_try, mbind at 1 2 3, io_bind, bind,
    OONI.client_get, call, OONI.response_json, lift.
  fold (countries_request self). rewrite Hr. simpl.
  unfold OONI.raise_for_status. unfold is_2xx in H2. rewrite H2. simpl.
  rewrite Hj. simpl.
  unfold mbind at 1, io_bind, bind.
  destruct (py_in "results" data) as [[]|]; simpl; [|done..].
  unfold mbind at 1, io_bind, bind.
  destruct (py_getitem data "results") as [results|]; simpl; [|done].
  unfold mbind at 1, io_bind, bind.
  destruct (py_iter results) as [ms|]; simpl; [|done].
  unfold mbind at 1, io_bind, bind.
  destruct (OONI.collect_probe_cc _ _) as [cs|]; simpl; [|done].
  unfold mbind at 1, io_bind, bind.
  by destruct (py_sorted cs).
Qed.

End countries.

(** C6: when the upstream call of [get_countries] raises - the transport
    fails, the status is not 2xx, or the body does not parse - the result
    is the hardcoded fallback list: its ten code and name pairs, with the
    display names, in the hardcoded order. *)
Theorem get_countries_fallback self log :
  upstream_raises self (countries_request self) ->
  fst (OONI.get_countries self log) = Ok OONI.common_countries /\
  OONI.common_countries =
    (fun p => [("code", JStr (fst p)); ("name", JStr (snd p))]) <$>
      [ ("US", "United States"); ("GB", "United Kingdom"); ("DE", "Germany");
        ("FR", "France"); ("CN", "China"); ("RU", "Russia"); ("IR", "Iran");
        ("IN", "India"); ("BR", "Brazil"); ("JP", "Japan") ] /\
  length OONI.common_countries = 10%nat.
Proof.
  intros H. split; [|split; reflexivity].
  rewrite get_countries_of_try.
  destruct (get_countries_try_raises self log H) as [e ->]. done.
Qed.

Lemma get_countries_fallback_witness :
  let self := OONI.init (fun _ => Ok (OONI.Response 503 "unavailable"
                                        (Raise (JSONDecodeError "no body"))))
                        "https://api.ooni.io" in
  fst (OONI.get_countries self []) = Ok OONI.common_countries /\
  OONI.common_countries =
    (fun p => [("code", JStr (fst p)); ("name", JStr (snd p))]) <$>
      [ ("US", "United States"); ("GB", "United Kingdom"); ("DE", "Germany");
        ("FR", "France"); ("CN", "China"); ("RU", "Russia"); ("IR", "Iran");
        ("IN", "India"); ("BR", "Brazil"); ("JP", "Japan") ] /\
  length OONI.common_countries = 10%nat.
Proof.
  intros self. apply (get_countries_fallback self []).
  vm_compute. left. reflexivity.
Defined.

(** *** The success path *)

Section success_path.

Lemma existsb_py_eq_str s (strs : list string) :
  existsb (py_eq (JStr s)) (JStr <$> strs) = bool_decide (s ∈ strs).
Proof.
  induction strs as [|t strs IH].
  - symmetry. apply bool_decide_eq_false_2, not_elem_of_nil.
  - rewrite fmap_cons. cbn [existsb py_eq]. rewrite IH.
    destruct (String.eqb_spec s t) as [->|Hne]; cbn [orb].
    + symmetry. apply bool_decide_eq_true_2. by left.
    + apply bool_decide_ext. rewrite elem_of_cons. tauto.
Qed.

Lemma observed_nil cc : ~ observed cc [].
Proof. intros (fields & H & _). by apply elem_of_nil in H. Qed.

Lemma observed_cons cc m ms :
  observed cc (m :: ms) <->
  (exists fields, m = JObj fields /\ dict_get "probe_cc" fields = Some (JStr cc))
  \/ observed cc ms.
Proof.
  unfold observed. split.
  - intros (fields & Hin & Hget). apply elem_of_cons in Hin as [<-|Hin]; eauto.
  - intros [(fields & -> & Hget)|(fields & Hin & Hget)];
      exists fields; split; auto; [by left | by right].
Qed.

(** The loop over well-formed measurements, started from a set of strings,
    ends with the set enlarged by the observed country codes. *)
Lemma collect_probe_cc_records ms : forall strs : list string,
  Forall measurement_record ms -> NoDup strs ->
  exists strs' : list string,
    OONI.collect_probe_cc ms (JStr <$> strs) = Ok (JStr <$> strs') /\
    NoDup strs' /\
    forall cc, cc ∈ strs' <-> cc ∈ strs \/ observed cc ms.
Proof.
  induction ms as [|m ms IH]; intros strs Hms Hnd.
  - exists strs. split; [done|]. split; [done|].
    intros cc. split; [by left|]. intros [?|H]; [done|].
    by apply observed_nil in H.
  - apply Forall_cons in Hms as [(fields & -> & Hcc) Hms].
    simpl. destruct (dict_get "probe_cc" fields) as [v|] eqn:Hget.
    + destruct v as [| | |s| |]; try (by destruct Hcc). clear Hcc.
      rewrite bool_decide_eq_true_2 by eauto. simpl.
      rewrite existsb_py_eq_str. case_bool_decide as Hin.
      * destruct (IH strs Hms Hnd) as (strs' & -> & Hnd' & Hmem).
        exists strs'. split; [done|]. split; [done|].
        intros cc. rewrite Hmem, observed_cons. split; [tauto|].
        intros [?|[(f & Hf & Hg)|?]]; auto.
        injection Hf as <-. rewrite Hget in Hg. injection Hg as <-. auto.
      * assert (Hnd2 : NoDup (strs ++ [s])).
        { apply NoDup_app. split; [done|]. split; [|apply NoDup_singleton].
          intros x Hx Hx'. apply list_elem_of_singleton in Hx' as ->. done. }
        destruct (IH (strs ++ [s]) Hms Hnd2) as (strs' & Heq & Hnd' & Hmem).
        exists strs'. rewrite fmap_app in Heq. split; [exact Heq|].
        split; [done|].
        intros cc. rewrite Hmem, observed_cons, elem_of_app,
          list_elem_of_singleton. split.
        -- intros [[?| ->]|?]; eauto.
        -- intros [?|[(f & Hf & Hg)|?]]; auto.
           injection Hf as <-. rewrite Hget in Hg. injection Hg as <-. auto.
    + rewrite bool_decide_eq_false_2 by (intros [? ?]; done). simpl.
      destruct (IH strs Hms Hnd) as (strs' & -> & Hnd' & Hmem).
      exists strs'. split; [done|]. split; [done|].
      intros cc. rewrite Hmem, observed_cons. split; [tauto|].
      intros [?|[(f & Hf & Hg)|?]]; auto.
      injection Hf as <-. rewrite Hget in Hg. done.
Qed.

(** [sorted] on a set of strings. *)
Lemma py_sorted_strings (strs : list string) :
  py_sorted (JStr <$> strs) = Ok (JStr <$> merge_sort String.le strs).
Proof.
  unfold py_sorted. by rewrite (mapM_fmap_Some str_of JStr strs).
Qed.

End success_path.

Section success_theorems.

Variable self : OONI.OONIClient.

Lemma get_countries_try_results log fields ms :
  upstream_returns self (countries_request self) (JObj fields) ->
  dict_get "results" fields = Some (JArr ms) ->
  fst (OONI.get_countries_try self log) =
    (countries_set ← OONI.collect_probe_cc ms [];
     sorted_set ← py_sorted countries_set;
     mret (Some (take 50 (OONI.country_entry <$> sorted_set)))).
Proof.
  intros Hup Hres. rewrite (get_countries_try_returns self log _ Hup).
  simpl. rewrite Hres. by rewrite bool_decide_eq_true_2 by eauto.
Qed.

(** C5: when the upstream call of [get_countries] succeeds and the body
    has a "results" list of measurement records, the result is the list of
    the distinct [probe_cc] values observed in it, sorted in the order of
    strings with the case kept as it is, cut to its first 50 entries, each
    rendered as [{"code": cc, "name": cc}]. *)
Theorem get_countries_sorted_distinct log fields ms :
  upstream_returns self (countries_request self) (JObj fields) ->
  dict_get "results" fields = Some (JArr ms) ->
  Forall measurement_record ms ->
  exists codes : list string,
    fst (OONI.get_countries self log) = Ok (code_entry <$> take 50 codes) /\
    Sorted String.le codes /\
    NoDup codes /\
    forall cc, cc ∈ codes <-> observed cc ms.
Proof.
  intros Hup Hres Hms.
  destruct (collect_probe_cc_records ms [] Hms (NoDup_nil_2))
    as (strs & Hcol & Hnd & Hmem).
  exists (merge_sort String.le strs). split; [|split; [|split]].
  - rewrite get_countries_of_try, (get_countries_try_results log _ _ Hup Hres).
    change (@nil json) with (JStr <$> @nil string). rewrite Hcol. simpl.
    rewrite py_sorted_strings. simpl.
    rewrite <- list_fmap_compose, fmap_take. done.
  - apply (Sorted_merge_sort String.le).
  - by rewrite merge_sort_Permutation.
  - intros cc. rewrite merge_sort_Permutation, Hmem.
    rewrite elem_of_nil. tauto.
Qed.

(** Measurements without a [probe_cc] field leave the set as it is. *)
Lemma collect_probe_cc_filter ms : forall acc,
  OONI.collect_probe_cc ms acc
    = OONI.collect_probe_cc (filter (fun m => has_probe_cc m = true) ms) acc.
Proof.
  induction ms as [|m ms IH]; intros acc; [done|].
  rewrite filter_cons. destruct (decide (has_probe_cc m = true)) as [Hm|Hm].
  - cbn [OONI.collect_probe_cc].
    destruct (py_in "probe_cc" m) as [[]|]; simpl; [|by apply IH|done].
    destruct (py_getitem m "probe_cc") as [cc|]; simpl; [|done].
    destruct (set_add cc acc) as [acc'|]; simpl; [|done]. apply IH.
  - destruct m as [| | | | |fields]; try done.
    cbn [OONI.collect_probe_cc]. simpl in *. rewrite IH.
    by destruct (bool_decide _).
Qed.

Lemma filter_lacks_probe_cc ms :
  Forall lacks_probe_cc ms -> filter (fun m => has_probe_cc m = true) ms = [].
Proof.
  induction 1 as [|m ms (fields & -> & Hget) _ IH]; [done|].
  rewrite filter_cons, IH. simpl. rewrite Hget.
  by rewrite decide_False by (rewrite bool_decide_eq_false_2; [done|by intros [? ?]]).
Qed.

(** The entries built on the success path repeat the code as the name, so
    they never make up the fallback list. *)
Lemma entries_not_fallback n (l : list json) :
  take n (OONI.country_entry <$> l) <> OONI.common_countries.
Proof.
  destruct n as [|n], l as [|cc l]; try done.
  simpl. unfold OONI.common_countries, OONI.country_entry.
  intros H. injection H as H1 H2 _. congruence.
Qed.

Lemma get_countries_try_none log :
  fst (OONI.get_countries_try self log) = Ok None <->
  exists data, upstream_returns self (countries_request self) data /\
               py_in "results" data = Ok false.
Proof.
  split.
  - unfold OONI.get_countries_try, mbind, io_bind, bind,
      OONI.client_get, call, OONI.response_json, lift, upstream_returns.
    fold (countries_request self).
    destruct (OONI.client self _) as [r|e] eqn:Hr; simpl; [|done].
    unfold OONI.raise_for_status, is_2xx.
    destruct (_ && _) eqn:H2; simpl; [|done].
    destruct (OONI.json_body r) as [data|] eqn:Hj; simpl; [|done].
    destruct (py_in "results" data) as [[]|] eqn:Hin; simpl; [| |done].
    + destruct (py_getitem data "results") as [results|]; simpl; [|done].
      destruct (py_iter results) as [ms|]; simpl; [|done].
      destruct (OONI.collect_probe_cc _ _) as [cs|]; simpl; [|done].
      by destruct (py_sorted cs).
    + intros _. exists data. split; [|done]. exists r. by rewrite H2.
  - intros (data & Hup & Hin).
    rewrite (get_countries_try_returns self log _ Hup), Hin. done.
Qed.

(** C10: once the upstream call of [get_countries] has returned a body with
    a "results" list, the measurements without a [probe_cc] field do not
    count - the outcome is that of the list without them - and when no
    measurement has the field (the empty list included) the result is the
    empty list.  The fallback list is returned exactly when the [try]
    block raises or the body has no "results" key. *)
Theorem get_countries_missing_probe_cc log :
  (forall fields ms,
     upstream_returns self (countries_request self) (JObj fields) ->
     dict_get "results" fields = Some (JArr ms) ->
     fst (OONI.get_countries_try self log) =
       (countries_set ← OONI.collect_probe_cc
                          (filter (fun m => has_probe_cc m = true) ms) [];
        sorted_set ← py_sorted countries_set;
        mret (Some (take 50 (OONI.country_entry <$> sorted_set)))) /\
     (Forall lacks_probe_cc ms -> fst (OONI.get_countries self log) = Ok [])) /\
  (fst (OONI.get_countries self log) = Ok OONI.common_countries <->
     (exists e, fst (OONI.get_countries_try self log) = Raise e) \/
     (exists data, upstream_returns self (countries_request self) data /\
                   py_in "results" data = Ok false)).
Proof.
  split.
  - intros fields ms Hup Hres.
    rewrite (get_countries_try_results log _ _ Hup Hres),
      <- collect_probe_cc_filter.
    split; [done|]. intros Hms.
    rewrite get_countries_of_try, (get_countries_try_results log _ _ Hup Hres),
      collect_probe_cc_filter, (filter_lacks_probe_cc _ Hms).
    reflexivity.
  - rewrite <- (get_countries_try_none log), get_countries_of_try.
    destruct (fst (OONI.get_countries_try self log)) as [[c|]|e] eqn:Htry.
    + split; [|intros [[? H]|H]; discriminate H].
      intros H. exfalso. injection H as H.
      revert Htry.
      unfold OONI.get_countries_try, mbind, io_bind, bind,
        OONI.client_get, call, OONI.response_json, lift.
      destruct (OONI.client self _) as [r|]; simpl; [|done].
      unfold OONI.raise_for_status.
      destruct (_ && _); simpl; [|done].
      destruct (OONI.json_body r) as [data|]; simpl; [|done].
      destruct (py_in "results" data) as [[]|]; simpl; [|done..].
      destruct (py_getitem data "results") as [results|]; simpl; [|done].
      destruct (py_iter results) as [ms|]; simpl; [|done].
      destruct (OONI.collect_probe_cc _ _) as [cs|]; simpl; [|done].
      destruct (py_sorted cs) as [sorted_set|]; simpl; [|done].
      intros [= <-]. by apply entries_not_fallback in H.
    + split; auto.
    + split; eauto.
Qed.

End success_theorems.

Lemma get_countries_sorted_distinct_witness :
  let ms := [ JObj [("probe_cc", JStr "US")]; JObj [("probe_cc", JStr "gb")];
              JObj [("test_name", JStr "web_connectivity")];
              JObj [("probe_cc", JStr "US")] ] in
  let client :=
    OONI.init (fun _ => Ok (OONI.Response 200 "" (Ok (JObj [("results", JArr ms)]))))
              "https://api.ooni.io" in
  exists codes : list string,
    fst (OONI.get_countries client []) = Ok (code_entry <$> take 50 codes) /\
    Sorted String.le codes /\
    NoDup codes /\
    forall cc, cc ∈ codes <-> observed cc ms.
Proof.
  intros ms client.
  apply (get_countries_sorted_distinct client [] [("results", JArr ms)] ms).
  - eexists. split; [reflexivity|]. split; reflexivity.
  - reflexivity.
  - repeat constructor; eexists; (split; [reflexivity|]); simpl; eauto.
Defined.

(** The example of the specification: US, gb, US gives US then gb. *)
Example get_countries_US_gb_US :
  let ms := [ JObj [("probe_cc", JStr "US")]; JObj [("probe_cc", JStr "gb")];
              JObj [("probe_cc", JStr "US")] ] in
  let client :=
    OONI.init (fun _ => Ok (OONI.Response 200 "" (Ok (JObj [("results", JArr ms)]))))
              "https://api.ooni.io" in
  fst (OONI.get_countries client []) = Ok [code_entry "US"; code_entry "gb"].
Proof. reflexivity. Qed.

Lemma get_countries_missing_probe_cc_witness :
  let ms := [ JObj [("test_name", JStr "web_connectivity")]; JObj [] ] in
  let client :=
    OONI.init (fun _ => Ok (OONI.Response 200 "" (Ok (JObj [("results", JArr ms)]))))
              "https://api.ooni.io" in
  fst (OONI.get_countries client []) = Ok [].
Proof.
  intros ms client.
  refine (proj2 (proj1 (get_countries_missing_probe_cc client [])
                         [("results", JArr ms)] ms _ _) _).
  - eexists. split; [reflexivity|]. split; reflexivity.
  - reflexivity.
  - repeat constructor; eexists; (split; reflexivity).
Defined.

(** ** Texts and the LIMIT token *)

#[local] Arguments String.append : simpl nomatch.

Section strings.

Lemma upper_app a b : upper (a +:+ b) = upper a +:+ upper b.
Proof. induction a as [|c a IH]; [done|]. simpl. by rewrite IH. Qed.

Lemma append_assoc (a b c : string) : (a +:+ b) +:+ c = a +:+ (b +:+ c).
Proof. induction a as [|x a IH]; [done|]. simpl. by rewrite IH. Qed.

Lemma starts_with_app_l p : forall a b,
  starts_with p a = true -> starts_with p (a +:+ b) = true.
Proof.
  induction p as [|x p IH]; intros a b; [done|].
  destruct a as [|y a]; [done|]. cbn [starts_with String.append].
  intros [-> H]%andb_true_iff. by rewrite (IH _ _ H).
Qed.

Lemma is_substring_app_l p a b :
  is_substring p a = true -> is_substring p (a +:+ b) = true.
Proof.
  induction a as [|c a IH].
  - destruct p; [intros _; by destruct b|done].
  - cbn [is_substring String.append]. intros [H|H]%orb_true_iff.
    + pose proof (starts_with_app_l p (String c a) b H) as H'.
      cbn [String.append] in H'. by rewrite H'.
    + rewrite (IH H). apply orb_true_r.
Qed.

Lemma is_substring_app_r p a b :
  is_substring p b = true -> is_substring p (a +:+ b) = true.
Proof.
  intros H. induction a as [|c a IH]; [done|].
  cbn [is_substring String.append]. rewrite IH. apply orb_true_r.
Qed.

(** Occurrences of LIMIT and the membership test agree. *)
Lemma occurrences_is_substring s :
  is_substring "LIMIT" s = false <-> occurrences "LIMIT" s = 0%nat.
Proof.
  induction s as [|c s IH]; [done|].
  cbn [is_substring occurrences].
  rewrite orb_false_iff, IH.
  destruct (starts_with "LIMIT" (String c s)); cbn [orb Nat.add].
  - split; [by intros [? _]|lia].
  - tauto.
Qed.

Ltac split_chars :=
  repeat match goal with
         | |- context [Ascii.eqb ?x ?y] =>
             destruct (Ascii.eqb_spec x y); subst;
             cbn [andb starts_with String.append]; try reflexivity
         end.

Lemma starts_with_limit_starts_clear a b :
  a <> "" -> starts_clear b = true ->
  starts_with "LIMIT" (a +:+ b) = starts_with "LIMIT" a.
Proof.
  intros Ha Hb.
  destruct b as [|y b]; [done|]. cbn [starts_clear] in Hb.
  destruct a as [|c1 [|c2 [|c3 [|c4 [|c5 a]]]]]; [done|..];
    cbn [starts_with String.append]; split_chars; done.
Qed.

Lemma starts_with_limit_ends_clear a b :
  ends_clear a = true ->
  starts_with "LIMIT" (a +:+ b) = starts_with "LIMIT" a.
Proof.
  intros Ha.
  destruct a as [|c1 [|c2 [|c3 [|c4 [|c5 a]]]]]; [done|..];
    cbn [ends_clear] in Ha;
    cbn [starts_with String.append]; split_chars; try done;
    destruct b; done.
Qed.

Lemma occurrences_app_starts_clear a b :
  starts_clear b = true ->
  occurrences "LIMIT" (a +:+ b)
    = (occurrences "LIMIT" a + occurrences "LIMIT" b)%nat.
Proof.
  intros Hb. induction a as [|c a IH]; [done|].
  pose proof (starts_with_limit_starts_clear (String c a) b) as H.
  cbn [String.append] in H.
  cbn [String.append occurrences]. rewrite H, IH by done. lia.
Qed.

Lemma occurrences_app_ends_clear a b :
  ends_clear a = true ->
  occurrences "LIMIT" (a +:+ b)
    = (occurrences "LIMIT" a + occurrences "LIMIT" b)%nat.
Proof.
  induction a as [|c a IH]; [done|]. intros Ha.
  pose proof (starts_with_limit_ends_clear (String c a) b Ha) as H.
  cbn [String.append] in H.
  cbn [String.append occurrences]. rewrite H.
  destruct a as [|c' a].
  - cbn [String.append occurrences]. lia.
  - rewrite IH by exact Ha. lia.
Qed.

Lemma starts_clear_app a b :
  starts_clear a = true -> starts_clear (a +:+ b) = true.
Proof. by destruct a. Qed.

Lemma ends_clear_app a b :
  ends_clear b = true -> ends_clear (a +:+ b) = true.
Proof.
  intros Hb. induction a as [|c a IH]; [done|].
  cbn [String.append ends_clear]. revert IH.
  by destruct (a +:+ b).
Qed.

Lemma limit_free_app_starts a b :
  limit_free a -> limit_free b -> starts_clear (upper b) = true ->
  limit_free (a +:+ b).
Proof.
  unfold limit_free. intros Ha Hb H.
  rewrite upper_app, occurrences_app_starts_clear by done. lia.
Qed.

Lemma limit_free_app_ends a b :
  limit_free a -> limit_free b -> ends_clear (upper a) = true ->
  limit_free (a +:+ b).
Proof.
  unfold limit_free. intros Ha Hb H.
  rewrite upper_app, occurrences_app_ends_clear by done. lia.
Qed.

Lemma upper_char_idemp c : upper_char (upper_char c) = upper_char c.
Proof. destruct c as [[] [] [] [] [] [] [] []]; reflexivity. Qed.

Lemma upper_idemp s : upper (upper s) = upper s.
Proof.
  induction s as [|c s IH]; [done|].
  cbn [upper]. by rewrite upper_char_idemp, IH.
Qed.

Lemma limit_free_upper s : limit_free s -> limit_free (upper s).
Proof. unfold limit_free. by rewrite upper_idemp. Qed.

(** A text without the letter l has no LIMIT token. *)
Lemma no_L_limit_free s : no_L s = true -> limit_free s.
Proof.
  unfold limit_free. induction s as [|c s IH]; [done|].
  cbn [no_L]. intros [Hc Hs]%andb_true_iff.
  cbn [upper occurrences]. rewrite (IH Hs).
  replace (starts_with "LIMIT" (String (upper_char c) (upper s))) with false;
    [done|].
  cbn [starts_with].
  destruct c as [[] [] [] [] [] [] [] []]; try reflexivity; discriminate.
Qed.

Lemma no_L_app a b : no_L (a +:+ b) = no_L a && no_L b.
Proof.
  induction a as [|c a IH]; [done|].
  cbn [String.append no_L]. rewrite IH. by rewrite andb_assoc.
Qed.

Lemma no_L_string_of_uint d : no_L (NilEmpty.string_of_uint d) = true.
Proof. induction d; cbn [NilEmpty.string_of_uint no_L]; by rewrite ?IHd. Qed.

Lemma no_L_str_of_int n : no_L (str_of_int n) = true.
Proof.
  unfold str_of_int, NilZero.string_of_int, NilZero.string_of_uint.
  destruct (Z.to_int n) as [d|d]; destruct d; try reflexivity;
    cbn [no_L]; rewrite ?no_L_string_of_uint; reflexivity.
Qed.

Lemma no_L_strftime n : no_L (MLab.strftime_Ymd n) = true.
Proof.
  unfold MLab.strftime_Ymd. destruct (MLab._ord2ymd n) as [[y m] d].
  unfold MLab.pad2.
  destruct (m <? 10), (d <? 10);
    rewrite ?no_L_app, ?no_L_str_of_int; reflexivity.
Qed.

End strings.

(** ** The M-Lab client *)

Section mlab.

Lemma yesterday_of_ok now :
  1 < now <= MLab._MAXORDINAL ->
  MLab.yesterday_of now = Ok (MLab.strftime_Ymd (now - 1)).
Proof.
  intros H. unfold MLab.yesterday_of.
  replace (0 <? now - 1) with true by (symmetry; apply Z.ltb_lt; lia).
  replace (now - 1 <=? MLab._MAXORDINAL) with true
    by (symmetry; apply Z.leb_le; lia).
  done.
Qed.

Example ord2ymd_leap_day : MLab._ord2ymd 738945 = (2024, 2, 29).
Proof. reflexivity. Qed.

Example ord2ymd_epoch : MLab._ord2ymd 719163 = (1970, 1, 1).
Proof. reflexivity. Qed.

Example ord2ymd_century : MLab._ord2ymd 766703 = (2100, 2, 28).
Proof. reflexivity. Qed.

Example ord2ymd_last : MLab._ord2ymd MLab._MAXORDINAL = (9999, 12, 31).
Proof. reflexivity. Qed.

Example yesterday_of_first_of_march :
  MLab.yesterday_of 738946 = Ok "2024-02-29".
Proof. reflexivity. Qed.

Example yesterday_of_new_year : MLab.yesterday_of 738886 = Ok "2023-12-31".
Proof. reflexivity. Qed.

(** The query of [get_available_countries] carries its own LIMIT, so
    [_execute_query] submits it as it is. *)
Lemma countries_query_has_limit yesterday limit :
  MLab.with_limit (MLab.countries_query yesterday limit) limit
    = MLab.countries_query yesterday limit.
Proof.
  unfold MLab.with_limit, MLab.countries_query.
  rewrite !upper_app.
  rewrite is_substring_app_r; [done|].
  rewrite is_substring_app_r; [done|].
  by apply is_substring_app_l.
Qed.

Lemma execute_query_outcome self query limit log :
  fst (MLab._execute_query self query limit log) =
    match MLab.run_query (MLab.client self) (MLab.with_limit query limit) with
    | Ok rows => Ok rows
    | Raise (GoogleCloudError msg) =>
        Raise (PyException ("BigQuery error: " +:+ msg))
    | Raise e => Raise (PyException ("Query execution error: " +:+ exn_str e))
    end.
Proof.
  unfold MLab._execute_query, try_except, call.
  destruct (MLab.run_query _ _) as [rows|e]; [done|]. by destruct e.
Qed.

End mlab.

(** C3, as amended: when the query of
    [MLabClient.get_available_countries] fails, the result is the client's
    own hardcoded fallback list of three entries with the keys
    [country_code] and [country_name].  It is not the fallback list of
    [OONIClient.get_countries], which has ten entries with the keys [code]
    and [name]; the codes and names of the three entries are those of the
    first three entries of that list. *)
Theorem mlab_countries_fallback self now limit log e :
  1 < now <= MLab._MAXORDINAL ->
  MLab.run_query (MLab.client self)
    (MLab.countries_query (MLab.strftime_Ymd (now - 1)) limit) = Raise e ->
  fst (MLab.get_available_countries self now limit log)
    = Ok MLab.fallback_countries /\
  length MLab.fallback_countries = 3%nat /\
  length OONI.common_countries = 10%nat /\
  MLab.fallback_countries <> OONI.common_countries /\
  codes_and_names "country_code" "country_name" MLab.fallback_countries
    = codes_and_names "code" "name" (take 3 OONI.common_countries).
Proof.
  intros Hnow Hq. split; [|by repeat split].
  unfold MLab.get_available_countries, mbind at 1, io_bind, bind, lift.
  rewrite (yesterday_of_ok _ Hnow).
  unfold try_except, mbind, io_bind, bind.
  pose proof (execute_query_outcome self
                (MLab.countries_query (MLab.strftime_Ymd (now - 1)) limit)
                limit log) as Hout.
  rewrite countries_query_has_limit, Hq in Hout.
  destruct (MLab._execute_query _ _ _ _) as [[rows|e'] log']; [|done].
  simpl in Hout. by destruct e.
Qed.

Lemma mlab_countries_fallback_witness :
  let self := {| MLab.project_id := None; MLab.credentials_path := None;
                 MLab.client :=
                   {| MLab.run_query := fun _ =>
                        Raise (GoogleCloudError "403 Access Denied") |} |} in
  fst (MLab.get_available_countries self 738946 100 [])
    = Ok MLab.fallback_countries /\
  length MLab.fallback_countries = 3%nat /\
  length OONI.common_countries = 10%nat /\
  MLab.fallback_countries <> OONI.common_countries /\
  codes_and_names "country_code" "country_name" MLab.fallback_countries
    = codes_and_names "code" "name" (take 3 OONI.common_countries).
Proof.
  intros self.
  apply (mlab_countries_fallback self 738946 100 []
           (GoogleCloudError "403 Access Denied")).
  - unfold MLab._MAXORDINAL. lia.
  - reflexivity.
Defined.

(** C3, as stated, fails: on a failing query the M-Lab client returns
    three entries keyed [country_code] and [country_name], not the ten
    entries of the OONI fallback list. *)
Lemma mlab_fallback_differs_from_ooni :
  let self := {| MLab.project_id := None; MLab.credentials_path := None;
                 MLab.client :=
                   {| MLab.run_query := fun _ =>
                        Raise (GoogleCloudError "403 Access Denied") |} |} in
  let failing := OONI.init (fun _ => Raise (RequestError "unreachable"))
                           "https://api.ooni.io" in
  exists mlab_list ooni_list,
    fst (MLab.get_available_countries self 738946 100 []) = Ok mlab_list /\
    fst (OONI.get_countries failing []) = Ok ooni_list /\
    mlab_list <> ooni_list /\
    length mlab_list = 3%nat /\ length ooni_list = 10%nat /\
    (dict_get "code" <$> mlab_list) = [None; None; None].
Proof.
  intros self failing. eexists _, _.
  split; [vm_compute; reflexivity|].
  split; [vm_compute; reflexivity|].
  repeat split. discriminate.
Qed.

(** ** Construction of the M-Lab client *)

(** C4, as amended: [MLabClient.__init__] first tries the key file when
    one is configured and exists, and [Client(project=...)] otherwise -
    the choice is made on the presence of the key file, not on a failure.
    When this first attempt succeeds its client is kept; when it raises,
    the constructor tries the plain [Client()], outside any handler: the
    constructor returns when [Client()] returns and raises what [Client()]
    raises. *)
Theorem init_outcome os bq project_id credentials_path :
  (forall c, first_attempt os bq project_id credentials_path = Ok c ->
     exists self, MLab.init os bq project_id credentials_path = Ok self /\
                  MLab.client self = c) /\
  (forall e, first_attempt os bq project_id credentials_path = Raise e ->
     (forall c, MLab.Client bq None = Ok c ->
        exists self, MLab.init os bq project_id credentials_path = Ok self /\
                     MLab.client self = c) /\
     (forall e', MLab.Client bq None = Raise e' ->
        MLab.init os bq project_id credentials_path = Raise e')) /\
  (is_ok (MLab.Client bq None) = true ->
     is_ok (MLab.init os bq project_id credentials_path) = true).
Proof.
  assert (Hfirst : MLab.init os bq project_id credentials_path =
    match first_attempt os bq project_id credentials_path with
    | Ok c => Ok {| MLab.project_id :=
                      py_or project_id (MLab.getenv os "GOOGLE_CLOUD_PROJECT");
                    MLab.credentials_path :=
                      py_or credentials_path
                        (MLab.getenv os "GOOGLE_APPLICATION_CREDENTIALS");
                    MLab.client := c |}
    | Raise _ =>
        match MLab.Client bq None with
        | Ok c => Ok {| MLab.project_id :=
                          py_or project_id
                            (MLab.getenv os "GOOGLE_CLOUD_PROJECT");
                        MLab.credentials_path :=
                          py_or credentials_path
                            (MLab.getenv os "GOOGLE_APPLICATION_CREDENTIALS");
                        MLab.client := c |}
        | Raise e' => Raise e'
        end
    end).
  { unfold MLab.init, first_attempt, key_file.
    destruct (py_or credentials_path _) as [p|]; [|reflexivity].
    by destruct (truthy (Some p) && MLab.path_exists os p). }
  rewrite Hfirst. split; [|split].
  - intros c ->. eauto.
  - intros e ->. split.
    + intros c ->. eauto.
    + by intros e' ->.
  - intros Hc. destruct (first_attempt _ _ _ _); [done|].
    by destruct (MLab.Client bq None).
Qed.

Lemma init_outcome_witness :
  let os := {| MLab.getenv := fun _ => None;
               MLab.path_exists := fun _ => false |} in
  let public := {| MLab.run_query := fun _ => Ok [] |} in
  let bq := {| MLab.from_service_account_json := fun _ _ =>
                 Raise (PyException "no such file");
               MLab.Client := fun project =>
                 match project with
                 | Some _ => Raise (DefaultCredentialsError "no credentials")
                 | None => Ok public
                 end |} in
  is_ok (MLab.init os bq (Some "my-project") None) = true.
Proof.
  intros os public bq.
  apply (init_outcome os bq (Some "my-project") None). reflexivity.
Defined.

(** C4, as stated, fails: with no key file, no project and no ambient
    credentials, [Client(project=None)] raises, the handler calls
    [Client()] again, and its error leaves the constructor. *)
Lemma init_raises :
  let os := {| MLab.getenv := fun _ => None;
               MLab.path_exists := fun _ => false |} in
  let bq := {| MLab.from_service_account_json := fun _ _ =>
                 Raise (DefaultCredentialsError "no credentials");
               MLab.Client := fun _ =>
                 Raise (DefaultCredentialsError "no credentials") |} in
  MLab.init os bq None None = Raise (DefaultCredentialsError "no credentials")
  /\ is_ok (MLab.init os bq None None) = false.
Proof. split; reflexivity. Qed.

(** ** Date defaulting *)

Section dates.

Variable self : MLab.MLabClient.
Variable now : Z.
Hypothesis now_in_range : 1 < now <= MLab._MAXORDINAL.

Lemma truthy_Some s : Some s <> Some "" -> truthy (Some s) = true.
Proof.
  intros H. unfold truthy. by destruct (String.eqb_spec s "") as [->|].
Qed.

Lemma settled_resolved start_date end_date :
  start_date <> Some "" -> end_date <> Some "" ->
  settled_dates now start_date end_date = resolve_dates now start_date end_date.
Proof.
  intros Hs He. unfold settled_dates, resolve_dates.
  destruct start_date as [s|], end_date as [e|];
    rewrite ?truthy_Some by done; reflexivity.
Qed.

Lemma start_date_settled start_date end_date :
  (if negb (truthy start_date)
   then lift (MLab.yesterday_of now)
   else mret (default "" start_date))
  = (mret (fst (settled_dates now start_date end_date)) : MLab.bqio string).
Proof.
  unfold settled_dates. cbn [fst].
  destruct (truthy start_date); [done|].
  cbn [negb]. by rewrite (yesterday_of_ok _ now_in_range).
Qed.

Lemma end_date_settled start_date end_date :
  (if negb (truthy end_date)
   then fst (settled_dates now start_date end_date)
   else default "" end_date)
  = snd (settled_dates now start_date end_date).
Proof. unfold settled_dates. by destruct (truthy end_date). Qed.

(** The outcome of [get_ndt_measurements], in terms of the settled
    dates. *)
Lemma ndt_outcome start_date end_date cc mn mx limit log :
  MLab.get_ndt_measurements self now start_date end_date cc mn mx limit log =
    let start := fst (settled_dates now start_date end_date) in
    let stop := snd (settled_dates now start_date end_date) in
    let query := MLab.ndt_query start stop cc mn mx in
    (match MLab.run_query (MLab.client self) (MLab.with_limit query limit) with
     | Ok rows =>
         Ok [ ("dataset", JStr "ndt.unified_downloads");
              ("count", JInt (Z.of_nat (length rows)));
              ("date_range", JObj [("start", JStr start); ("end", JStr stop)]);
              ("results", JArr (JObj <$> rows)) ]
     | Raise e =>
         Raise (PyException
                  ("Error fetching NDT measurements: " +:+
                   match e with
                   | GoogleCloudError msg => "BigQuery error: " +:+ msg
                   | _ => "Query execution error: " +:+ exn_str e
                   end))
     end,
     log ++ [MLab.with_limit query limit]).
Proof.
  unfold MLab.get_ndt_measurements.
  rewrite (start_date_settled start_date end_date).
  unfold mbind at 1, io_bind, bind, mret, io_ret, ret.
  rewrite (end_date_settled start_date end_date).
  unfold try_except, mbind, io_bind, bind, MLab._execute_query, try_except,
    call.
  cbv zeta.
  destruct (MLab.run_query _ _) as [rows|e]; [done|]. by destruct e.
Qed.

Lemma statistics_log start_date end_date cc log :
  snd (MLab.get_statistics self now start_date end_date cc log) =
    log ++ [MLab.with_limit
              (MLab.stats_query (fst (settled_dates now start_date end_date))
                                (snd (settled_dates now start_date end_date))
                                cc) 1].
Proof.
  unfold MLab.get_statistics.
  rewrite (start_date_settled start_date end_date).
  unfold mbind at 1, io_bind, bind, mret, io_ret, ret.
  rewrite (end_date_settled start_date end_date).
  unfold try_except, mbind, io_bind, bind, MLab._execute_query, try_except,
    call.
  destruct (MLab.run_query _ _) as [[|first rows]|e]; [done..|].
  by destruct e.
Qed.

End dates.

(** C8: in [get_ndt_measurements] and [get_statistics] an absent start
    date resolves to the day before the call-time date and an absent end
    date to the resolved start date, so that both are that same day when
    both are left out; the query that is submitted is built from the
    resolved dates, and the [date_range] that [get_ndt_measurements]
    returns holds them. *)
Theorem dates_default self now start_date end_date cc mn mx limit log :
  1 < now <= MLab._MAXORDINAL ->
  start_date <> Some "" -> end_date <> Some "" ->
  let start := fst (resolve_dates now start_date end_date) in
  let stop := snd (resolve_dates now start_date end_date) in
  (start_date = None -> start = MLab.strftime_Ymd (now - 1)) /\
  (end_date = None -> stop = start) /\
  snd (MLab.get_ndt_measurements self now start_date end_date cc mn mx
         limit log)
    = log ++ [MLab.with_limit (MLab.ndt_query start stop cc mn mx) limit] /\
  (forall rows,
     MLab.run_query (MLab.client self)
       (MLab.with_limit (MLab.ndt_query start stop cc mn mx) limit) = Ok rows ->
     exists d,
       fst (MLab.get_ndt_measurements self now start_date end_date cc mn mx
              limit log) = Ok d /\
       dict_get "date_range" d
         = Some (JObj [("start", JStr start); ("end", JStr stop)])) /\
  snd (MLab.get_statistics self now start_date end_date cc log)
    = log ++ [MLab.with_limit (MLab.stats_query start stop cc) 1].
Proof.
  intros Hnow Hs He start stop.
  split; [by intros ->|]. split; [by intros ->|].
  rewrite (ndt_outcome self now Hnow _ _ cc mn mx limit log),
    (statistics_log self now Hnow).
  rewrite (settled_resolved now _ _ Hs He). fold start stop. cbv zeta.
  split; [done|]. split; [|done].
  intros rows ->. eexists. split; [reflexivity|done].
Qed.

Lemma dates_default_witness :
  let self := {| MLab.project_id := None; MLab.credentials_path := None;
                 MLab.client := {| MLab.run_query := fun _ => Ok [] |} |} in
  fst (resolve_dates 738946 None None) = "2024-02-29" /\
  snd (resolve_dates 738946 None None) = "2024-02-29" /\
  exists d,
    fst (MLab.get_ndt_measurements self 738946 None None None None None 100 [])
      = Ok d /\
    dict_get "date_range" d
      = Some (JObj [("start", JStr "2024-02-29"); ("end", JStr "2024-02-29")]).
Proof.
  intros self.
  split; [reflexivity|]. split; [reflexivity|].
  refine (proj1 (proj2 (proj2 (proj2
    (dates_default self 738946 None None None None None 100 [] _ _ _)))) [] _).
  - unfold MLab._MAXORDINAL. lia.
  - discriminate.
  - discriminate.
  - reflexivity.
Defined.

(** ** The LIMIT clause *)

Section limit_clause.

Lemma limit_free_settled now start_date end_date :
  plain_input start_date -> plain_input end_date ->
  limit_free (fst (settled_dates now start_date end_date)) /\
  limit_free (snd (settled_dates now start_date end_date)).
Proof.
  intros Hs He. unfold settled_dates. cbn [fst snd].
  assert (H1 : limit_free (if truthy start_date then default "" start_date
                           else MLab.strftime_Ymd (now - 1))).
  { destruct start_date as [s|]; cbn [truthy];
      [destruct (negb _); [apply Hs|]|]; apply no_L_limit_free, no_L_strftime. }
  split; [exact H1|].
  destruct end_date as [e|]; cbn [truthy]; [|exact H1].
  destruct (negb _); [apply He|exact H1].
Qed.

Lemma limit_free_country_filter cc query :
  plain_input cc -> limit_free query ->
  limit_free (MLab.add_country_filter cc query).
Proof.
  intros Hcc Hq. unfold MLab.add_country_filter.
  destruct cc as [s|]; [|done]. destruct (truthy (Some s)); [|done].
  destruct Hcc as [_ Hs].
  apply limit_free_app_starts; [done| |by rewrite upper_app].
  apply limit_free_app_ends; [done| |done].
  apply limit_free_app_starts; [by apply limit_free_upper|done|done].
Qed.

Lemma limit_free_speed_filter op speed query :
  limit_free op -> limit_free_float speed -> limit_free query ->
  limit_free (MLab.add_speed_filter op speed query).
Proof.
  intros Hop Hx Hq. unfold MLab.add_speed_filter.
  destruct speed as [x|]; [|done].
  apply limit_free_app_starts; [done| |by rewrite upper_app].
  apply limit_free_app_ends; [done| |done].
  apply limit_free_app_starts; [done| |by rewrite upper_app].
  apply limit_free_app_ends; [done|exact Hx|done].
Qed.

(** The query of [get_ndt_measurements] has no LIMIT token of its own
    when the pieces put into the template have none. *)
Lemma limit_free_ndt_query start stop cc mn mx :
  limit_free start -> limit_free stop -> plain_input cc ->
  limit_free_float mn -> limit_free_float mx ->
  limit_free (MLab.ndt_query start stop cc mn mx).
Proof.
  intros Hs He Hcc Hmn Hmx. unfold MLab.ndt_query.
  apply limit_free_app_starts; [|done|done].
  apply limit_free_speed_filter; [done|done|].
  apply limit_free_speed_filter; [done|done|].
  apply limit_free_country_filter; [done|].
  apply limit_free_app_ends; [by vm_compute| |by vm_compute].
  apply limit_free_app_starts; [done| |by rewrite upper_app].
  apply limit_free_app_ends; [by vm_compute| |by vm_compute].
  apply limit_free_app_starts; [done|by vm_compute|by vm_compute].
Qed.

(** The clause that [_execute_query] appends counts for one occurrence. *)
Lemma appended_limit_once query limit :
  limit_free query ->
  MLab.with_limit query limit = query +:+ " LIMIT " +:+ str_of_int limit /\
  occurrences "LIMIT" (upper (MLab.with_limit query limit)) = 1%nat.
Proof.
  intros Hq. unfold MLab.with_limit.
  rewrite (proj2 (occurrences_is_substring (upper query)) Hq). cbn [negb].
  split; [done|].
  rewrite upper_app, occurrences_app_starts_clear by (by rewrite upper_app).
  rewrite upper_app, occurrences_app_ends_clear by done.
  rewrite Hq, (no_L_limit_free _ (no_L_str_of_int limit)). reflexivity.
Qed.

Lemma with_limit_has_token query limit :
  is_substring "LIMIT" (upper (MLab.with_limit query limit)) = true.
Proof.
  unfold MLab.with_limit.
  destruct (is_substring "LIMIT" (upper query)) eqn:H; [done|]. cbn [negb].
  rewrite !upper_app. apply is_substring_app_r. by apply is_substring_app_l.
Qed.

End limit_clause.

(** C7, as amended: [_execute_query] appends a LIMIT clause exactly when
    the upper-cased query text has no LIMIT token, so the text it submits
    always has the token.  For [get_ndt_measurements] called with ASCII
    dates and country code free of the token (and speeds printed without
    it), the text submitted is the assembled query followed by the one
    appended clause, and the token occurs in it exactly once. *)
Theorem ndt_query_one_limit self now start_date end_date cc mn mx limit log :
  1 < now <= MLab._MAXORDINAL ->
  plain_input start_date -> plain_input end_date -> plain_input cc ->
  limit_free_float mn -> limit_free_float mx ->
  (forall query n,
     MLab.with_limit query n =
       (if is_substring "LIMIT" (upper query) then query
        else query +:+ " LIMIT " +:+ str_of_int n) /\
     is_substring "LIMIT" (upper (MLab.with_limit query n)) = true) /\
  exists query,
    snd (MLab.get_ndt_measurements self now start_date end_date cc mn mx
           limit log)
      = log ++ [query +:+ " LIMIT " +:+ str_of_int limit] /\
    occurrences "LIMIT" (upper query) = 0%nat /\
    occurrences "LIMIT" (upper (query +:+ " LIMIT " +:+ str_of_int limit))
      = 1%nat.
Proof.
  intros Hnow Hs He Hcc Hmn Hmx. split.
  - intros query n. split; [|apply with_limit_has_token].
    unfold MLab.with_limit. by destruct (is_substring _ _).
  - destruct (limit_free_settled now _ _ Hs He) as [Hstart Hstop].
    pose proof (limit_free_ndt_query _ _ cc mn mx Hstart Hstop Hcc Hmn Hmx)
      as Hfree.
    destruct (appended_limit_once _ limit Hfree) as [Happ Hone].
    eexists. rewrite (ndt_outcome self now Hnow). cbn [snd].
    rewrite Happ in Hone |- *. split; [reflexivity|]. split; [exact Hfree|].
    exact Hone.
Qed.

Lemma ndt_query_one_limit_witness :
  let self := {| MLab.project_id := None; MLab.credentials_path := None;
                 MLab.client := {| MLab.run_query := fun _ => Ok [] |} |} in
  exists query,
    snd (MLab.get_ndt_measurements self 738946 (Some "2024-01-01") None
           (Some "us") (Some {| MLab.float_repr := "1.5" |}) None 10 [])
      = [query +:+ " LIMIT " +:+ str_of_int 10] /\
    occurrences "LIMIT" (upper query) = 0%nat /\
    occurrences "LIMIT" (upper (query +:+ " LIMIT " +:+ str_of_int 10))
      = 1%nat.
Proof.
  intros self.
  refine (proj2 (ndt_query_one_limit self 738946 (Some "2024-01-01") None
                   (Some "us") (Some {| MLab.float_repr := "1.5" |}) None 10 []
                   _ _ _ _ _ _)).
  - unfold MLab._MAXORDINAL. lia.
  - split; reflexivity.
  - exact I.
  - split; reflexivity.
  - reflexivity.
  - exact I.
Defined.

(** C7, as stated, fails: with a start date that holds the word twice,
    nothing is appended and the submitted text has two occurrences of the
    token; with the country code "limit" nothing is appended either, and
    the text ends with the ORDER BY clause. *)
Lemma ndt_query_limit_count_fails :
  let self := {| MLab.project_id := None; MLab.credentials_path := None;
                 MLab.client := {| MLab.run_query := fun _ => Ok [] |} |} in
  (exists query,
     snd (MLab.get_ndt_measurements self 738946 (Some "limit limit") None None
            None None 100 []) = [query] /\
     query = MLab.ndt_query "limit limit" "limit limit" None None None /\
     occurrences "LIMIT" (upper query) = 4%nat /\
     occurrences "LIMIT" (upper query) <> 1%nat) /\
  (exists query,
     snd (MLab.get_ndt_measurements self 738946 (Some "2024-01-01") None
            (Some "limit") None None 100 []) = [query] /\
     query = MLab.ndt_query "2024-01-01" "2024-01-01" (Some "limit") None None /\
     query = MLab.ndt_template_0 +:+ "2024-01-01" +:+ MLab.ndt_template_1
               +:+ "2024-01-01" +:+ MLab.ndt_template_2
               +:+ " AND client.Geo.CountryCode = 'LIMIT'"
               +:+ " ORDER BY test_date DESC").
Proof.
  intros self. split.
  - eexists. split; [vm_compute; reflexivity|].
    split; [vm_compute; reflexivity|]. split; [vm_compute; reflexivity|].
    vm_compute. discriminate.
  - eexists. split; [vm_compute; reflexivity|].
    split; vm_compute; reflexivity.
Qed.

(** * Further properties of the OONI client *)

Section ooni_requests.

Variable self : OONI.OONIClient.

Lemma lookup_set_if_truthy_eq k v (params : gmap string OONI.param) :
  OONI.set_if_truthy k v params !! k =
    match filter_param v with
    | Some p => Some p
    | None => params !! k
    end.
Proof.
  unfold OONI.set_if_truthy, filter_param.
  destruct v as [s|]; [|done].
  destruct (truthy (Some s)); [|done]. by rewrite lookup_insert_eq.
Qed.

(** The handlers of the two fetching operations: [httpx] errors are
    rebuilt as plain exceptions, anything else goes through. *)
Lemma snd_wrapped {A} (m : OONI.http A) (h : exn -> exn) log :
  snd (try_except m (fun e => throw (h e)) log) = snd (m log).
Proof. unfold try_except, throw. by destruct (m log) as [[?|?] ?]. Qed.

(** X1: the request of [get_measurements] goes to the measurements
    endpoint; each of the four filters is a query parameter exactly when
    the argument is given and not empty, and then carries the argument as
    it is; beside these four, only [limit] and [offset] are sent. *)
Theorem get_measurements_filters test_name probe_cc since until limit offset
    log :
  exists req,
    snd (OONI.get_measurements self test_name probe_cc since until
           limit offset log) = log ++ [req] /\
    OONI.req_url req = OONI.api_base self +:+ "/measurements" /\
    OONI.req_params req !! "test_name" = filter_param test_name /\
    OONI.req_params req !! "probe_cc" = filter_param probe_cc /\
    OONI.req_params req !! "since" = filter_param since /\
    OONI.req_params req !! "until" = filter_param until /\
    forall k, k ∉ ["limit"; "offset"; "test_name"; "probe_cc"; "since"; "until"] ->
              OONI.req_params req !! k = None.
Proof.
  eexists. split.
  - unfold OONI.get_measurements, try_except, mbind, io_bind, bind,
      OONI.client_get, call.
    destruct (OONI.client self _) as [r|e]; simpl.
    + unfold OONI.raise_for_status.
      destruct (_ && _); simpl.
      * unfold OONI.response_json, lift.
        destruct (OONI.json_body r) as [?|[]]; reflexivity.
      * reflexivity.
    + destruct e; reflexivity.
  - cbn [OONI.req_url OONI.req_params]. split; [done|].
    repeat split.
    + rewrite !lookup_set_if_truthy by done. rewrite lookup_set_if_truthy_eq.
      by destruct (filter_param test_name).
    + rewrite !lookup_set_if_truthy by done. rewrite lookup_set_if_truthy_eq.
      rewrite !lookup_set_if_truthy by done.
      by destruct (filter_param probe_cc).
    + rewrite !lookup_set_if_truthy by done. rewrite lookup_set_if_truthy_eq.
      rewrite !lookup_set_if_truthy by done.
      by destruct (filter_param since).
    + rewrite lookup_set_if_truthy_eq.
      rewrite !lookup_set_if_truthy by done.
      by destruct (filter_param until).
    + intros k Hk.
      rewrite !lookup_set_if_truthy by (intros <-; apply Hk; set_solver).
      rewrite !lookup_insert_ne by (intros <-; apply Hk; set_solver).
      done.
Qed.

(** X2: [get_measurements] relays the decoded body of a 2xx answer as it
    is; an answer with another status raises a plain exception that names
    the status and the body text, a transport error one that carries the
    transport's message; no [httpx] error ever leaves the operation. *)
Theorem get_measurements_outcome test_name probe_cc since until limit offset
    log :
  exists req,
    snd (OONI.get_measurements self test_name probe_cc since until
           limit offset log) = log ++ [req] /\
    let outcome := fst (OONI.get_measurements self test_name probe_cc since
                          until limit offset log) in
    (forall r data,
       OONI.client self req = Ok r -> is_2xx r = true ->
       OONI.json_body r = Ok data -> outcome = Ok data) /\
    (forall r,
       OONI.client self req = Ok r -> is_2xx r = false ->
       outcome = Raise (PyException
                          ("HTTP error: " +:+ str_of_int (OONI.status_code r)
                           +:+ " - " +:+ OONI.text r))) /\
    (forall msg,
       OONI.client self req = Raise (RequestError msg) ->
       outcome = Raise (PyException ("Request error: " +:+ msg))) /\
    (forall e, outcome = Raise e -> is_httpx_error e = false).
Proof.
  eexists. split.
  - unfold OONI.get_measurements, try_except, mbind, io_bind, bind,
      OONI.client_get, call.
    destruct (OONI.client self _) as [r|e]; simpl.
    + unfold OONI.raise_for_status.
      destruct (_ && _); simpl.
      * unfold OONI.response_json, lift.
        destruct (OONI.json_body r) as [?|[]]; reflexivity.
      * reflexivity.
    + destruct e; reflexivity.
  - cbv zeta.
    unfold OONI.get_measurements, try_except, mbind, io_bind, bind,
      OONI.client_get, call, OONI.raise_for_status, OONI.response_json,
      lift, is_2xx.
    repeat split.
    + intros r data -> -> ->. reflexivity.
    + intros r -> ->. reflexivity.
    + intros msg ->. reflexivity.
    + intros e.
      destruct (OONI.client self _) as [r|e0]; simpl.
      * destruct (_ && _); simpl; [|by intros [= <-]].
        destruct (OONI.json_body r) as [?|[]]; simpl; by intros [= <-].
      * destruct e0; simpl; by intros [= <-].
Qed.

(** X3: [get_measurement_details] asks for
    [{api_base}/measurements/{measurement_id}], with the identifier put
    into the path as it is and without query parameters, and treats the
    answer as [get_measurements] does. *)
Theorem get_measurement_details_outcome measurement_id log :
  let req := OONI.Request
               (OONI.api_base self +:+ "/measurements/" +:+ measurement_id) ∅ in
  let outcome := fst (OONI.get_measurement_details self measurement_id log) in
  snd (OONI.get_measurement_details self measurement_id log) = log ++ [req] /\
  (forall r data,
     OONI.client self req = Ok r -> is_2xx r = true ->
     OONI.json_body r = Ok data -> outcome = Ok data) /\
  (forall r,
     OONI.client self req = Ok r -> is_2xx r = false ->
     outcome = Raise (PyException
                        ("HTTP error: " +:+ str_of_int (OONI.status_code r)
                         +:+ " - " +:+ OONI.text r))) /\
  (forall msg,
     OONI.client self req = Raise (RequestError msg) ->
     outcome = Raise (PyException ("Request error: " +:+ msg))) /\
  (forall e, outcome = Raise e -> is_httpx_error e = false).
Proof.
  cbv zeta.
  unfold OONI.get_measurement_details, try_except, mbind, io_bind, bind,
    OONI.client_get, call, OONI.raise_for_status, OONI.response_json,
    lift, is_2xx.
  split; [|repeat split].
  - destruct (OONI.client self _) as [r|e]; simpl.
    + destruct (_ && _); simpl; [|reflexivity].
      destruct (OONI.json_body r) as [?|[]]; reflexivity.
    + destruct e; reflexivity.
  - intros r data -> -> ->. reflexivity.
  - intros r -> ->. reflexivity.
  - intros msg ->. reflexivity.
  - intros e.
    destruct (OONI.client self _) as [r|e0]; simpl.
    + destruct (_ && _); simpl; [|by intros [= <-]].
      destruct (OONI.json_body r) as [?|[]]; simpl; by intros [= <-].
    + destruct e0; simpl; by intros [= <-].
Qed.

End ooni_requests.

Lemma get_measurements_filters_witness :
  let self := OONI.init (fun _ => Raise (RequestError "unreachable"))
                        "https://api.ooni.io" in
  exists req,
    snd (OONI.get_measurements self (Some "") (Some "US") None None 10 0 [])
      = [req] /\
    OONI.req_params req !! "test_name" = None /\
    OONI.req_params req !! "probe_cc" = Some (OONI.PStr "US") /\
    OONI.req_params req !! "verbose" = None.
Proof.
  intros self.
  destruct (get_measurements_filters self (Some "") (Some "US") None None
              10 0 []) as (req & Hlog & _ & Htn & Hcc & _ & _ & Hother).
  exists req. split; [exact Hlog|]. split; [exact Htn|]. split; [exact Hcc|].
  apply Hother. vm_compute. intros H.
  repeat (apply elem_of_cons in H as [H|H]; [discriminate H|]).
  by apply elem_of_nil in H.
Defined.

Lemma get_measurements_outcome_witness :
  let self := OONI.init (fun _ => Ok (OONI.Response 404 "Not Found"
                                        (Raise (JSONDecodeError "no body"))))
                        "https://api.ooni.io" in
  fst (OONI.get_measurements self None (Some "US") None None 10 0 [])
    = Raise (PyException "HTTP error: 404 - Not Found").
Proof.
  intros self.
  destruct (get_measurements_outcome self None (Some "US") None None 10 0 [])
    as (req & Hlog & _ & H404 & _).
  exact (H404 (OONI.Response 404 "Not Found" (Raise (JSONDecodeError "no body")))
              eq_refl eq_refl).
Defined.

Lemma get_measurement_details_outcome_witness :
  let self := OONI.init (fun _ => Raise (RequestError "connection refused"))
                        "https://api.ooni.io" in
  fst (OONI.get_measurement_details self "20240301T000000Z_webconnectivity" [])
    = Raise (PyException "Request error: connection refused").
Proof.
  intros self.
  exact (proj1 (proj2 (proj2 (proj2
    (get_measurement_details_outcome self "20240301T000000Z_webconnectivity" []))))
    "connection refused" eq_refl).
Defined.

(** ** Further properties of [get_countries] *)

Section countries_more.

Variable self : OONI.OONIClient.

(** What the [try] block returns, when it returns a value, is built from
    entries that repeat the code as the name, and is cut at 50. *)
Lemma get_countries_try_some log c :
  fst (OONI.get_countries_try self log) = Ok (Some c) ->
  exists l, c = take 50 (OONI.country_entry <$> l).
Proof.
  unfold OONI.get_countries_try, mbind, io_bind, bind,
    OONI.client_get, call, OONI.response_json, lift.
  destruct (OONI.client self _) as [r|]; simpl; [|done].
  unfold OONI.raise_for_status.
  destruct (_ && _); simpl; [|done].
  destruct (OONI.json_body r) as [data|]; simpl; [|done].
  destruct (py_in "results" data) as [[]|]; simpl; [|done..].
  destruct (py_getitem data "results") as [results|]; simpl; [|done].
  destruct (py_iter results) as [ms|]; simpl; [|done].
  destruct (OONI.collect_probe_cc _ _) as [cs|]; simpl; [|done].
  destruct (py_sorted cs) as [sorted_set|]; simpl; [|done].
  intros [= <-]. eauto.
Qed.

(** X4: [get_countries] never raises, whatever the transport does and
    whatever the body holds; it sends its one request, and it returns at
    most 50 entries, each a dict with exactly the keys [code] and
    [name]. *)
Theorem get_countries_total log :
  exists countries,
    OONI.get_countries self log
      = (Ok countries, log ++ [countries_request self]) /\
    (length countries <= 50)%nat /\
    Forall (fun d => exists code name, d = [("code", code); ("name", name)])
           countries.
Proof.
  destruct (OONI.get_countries self log) as [res log'] eqn:Hrun.
  pose proof (get_countries_sends self log) as Hlog.
  pose proof (get_countries_of_try self log) as Hres.
  rewrite Hrun in Hlog, Hres. simpl in Hlog, Hres. subst log' res.
  destruct (fst (OONI.get_countries_try self log)) as [[c|]|e] eqn:Htry.
  - exists c. split; [done|].
    destruct (get_countries_try_some log c Htry) as [l ->]. split.
    + rewrite length_take. lia.
    + apply Forall_take, Forall_fmap, Forall_true. intros cc.
      by exists cc, cc.
  - exists OONI.common_countries. split; [done|]. split; [simpl; lia|].
    unfold OONI.common_countries. repeat constructor; by eexists _, _.
  - exists OONI.common_countries. split; [done|]. split; [simpl; lia|].
    unfold OONI.common_countries. repeat constructor; by eexists _, _.
Qed.

(** A malformed measurement makes the loop raise. *)
Lemma collect_probe_cc_malformed ms : forall acc,
  existsb malformed ms = true ->
  exists e, OONI.collect_probe_cc ms acc = Raise e.
Proof.
  induction ms as [|m ms IH]; intros acc; [done|].
  cbn [existsb]. destruct (malformed m) eqn:Hm.
  - intros _. cbn [OONI.collect_probe_cc].
    destruct m as [| | |s|l|fields]; simpl in *; try by eauto.
    + rewrite Hm. simpl. eauto.
    + rewrite Hm. simpl. eauto.
    + destruct (dict_get "probe_cc" fields) as [v|]; [|done]. simpl.
      unfold set_add. apply negb_true_iff in Hm. rewrite Hm. simpl. eauto.
  - cbn [orb]. intros Hms. cbn [OONI.collect_probe_cc].
    destruct (py_in "probe_cc" m) as [[]|]; simpl; [|by apply IH|by eauto].
    destruct (py_getitem m "probe_cc") as [cc|]; simpl; [|by eauto].
    destruct (set_add cc acc) as [acc'|]; simpl; [|by eauto].
    by apply IH.
Qed.

(** X5: one malformed entry in the "results" list - an entry that is
    [None], a [bool] or an [int], a string or list with "probe_cc" in it,
    or an object whose [probe_cc] is a list or an object - makes
    [get_countries] drop all the measurements and return the fallback
    list. *)
Theorem get_countries_malformed log fields ms :
  upstream_returns self (countries_request self) (JObj fields) ->
  dict_get "results" fields = Some (JArr ms) ->
  existsb malformed ms = true ->
  fst (OONI.get_countries self log) = Ok OONI.common_countries.
Proof.
  intros Hup Hres Hbad.
  rewrite get_countries_of_try, (get_countries_try_results self log _ _ Hup Hres).
  by destruct (collect_probe_cc_malformed ms [] Hbad) as [e ->].
Qed.

(** The set built by the loop keeps what it started with and has, for the
    [probe_cc] of every measurement object, a member equal to it. *)
Lemma collect_probe_cc_members ms : forall acc cs,
  OONI.collect_probe_cc ms acc = Ok cs ->
  (forall x, x ∈ acc -> x ∈ cs) /\
  (forall v, observed_value v ms -> exists y, y ∈ cs /\ py_eq v y = true).
Proof.
  induction ms as [|m ms IH]; intros acc cs.
  - intros [= <-]. split; [done|].
    intros v (fields & H & _). by apply elem_of_nil in H.
  - cbn [OONI.collect_probe_cc].
    destruct (py_in "probe_cc" m) as [has|] eqn:Hin; simpl; [|done].
    destruct has.
    + destruct (py_getitem m "probe_cc") as [cc|] eqn:Hget; simpl; [|done].
      unfold set_add. destruct (hashable cc) eqn:Hh; simpl; [|done].
      destruct (existsb (py_eq cc) acc) eqn:Hex; intros Hcs;
        destruct (IH _ _ Hcs) as [Hacc Hobs]; split.
      * done.
      * intros v (fields & [<-|Hf]%elem_of_cons & Hv).
        -- simpl in Hget. rewrite Hv in Hget. injection Hget as <-.
           apply existsb_exists in Hex as (y & Hy & Heq).
           exists y. split; [|done]. apply Hacc. by apply list_elem_of_In.
        -- apply Hobs. by exists fields.
      * intros x Hx. apply Hacc. apply elem_of_app. by left.
      * intros v (fields & [<-|Hf]%elem_of_cons & Hv).
        -- simpl in Hget. rewrite Hv in Hget. injection Hget as <-.
           exists v. split.
           ++ apply Hacc. apply elem_of_app. right. by left.
           ++ destruct v; try done; simpl;
                first [by destruct b|apply Z.eqb_refl|apply String.eqb_refl].
        -- apply Hobs. by exists fields.
    + intros Hcs. destruct (IH _ _ Hcs) as [Hacc Hobs]. split; [done|].
      intros v (fields & [<-|Hf]%elem_of_cons & Hv).
      * simpl in Hin. rewrite Hv in Hin.
        rewrite bool_decide_eq_true_2 in Hin by eauto. done.
      * apply Hobs. by exists fields.
Qed.

Lemma py_eq_string s y : py_eq (JStr s) y = true -> y = JStr s.
Proof.
  destruct y; try done. simpl. by intros ->%String.eqb_eq.
Qed.

Lemma py_eq_not_string v y :
  str_of v = None -> py_eq v y = true -> str_of y = None.
Proof. destruct v, y; try done. Qed.

(** [sorted] refuses a set that has a string and a value of another
    type. *)
Lemma py_sorted_mixed cs s y :
  JStr s ∈ cs -> y ∈ cs -> str_of y = None -> py_sorted cs = Raise TypeError.
Proof.
  intros Hs Hy Hny. unfold py_sorted.
  destruct (mapM str_of cs) as [strs|] eqn:Hmap.
  - apply mapM_Some_1 in Hmap.
    apply list_elem_of_lookup in Hy as [i Hi].
    destruct (Forall2_lookup_l _ _ _ _ _ Hmap Hi) as (t & _ & Ht). congruence.
  - destruct (forallb _ cs) eqn:Hall.
    + rewrite forallb_forall in Hall.
      apply list_elem_of_In, Hall in Hs. by simpl in Hs.
    + destruct cs as [|x [|x' cs]]; [done| |done].
      apply list_elem_of_singleton in Hs, Hy. subst. done.
Qed.

(** X6: when the "results" list holds a measurement whose [probe_cc] is a
    string and another whose [probe_cc] is not (it is [null], a boolean,
    a number, a list or an object), [get_countries] returns the fallback
    list: the codes that are strings are lost with the rest. *)
Theorem get_countries_mixed_types log fields ms cc v :
  upstream_returns self (countries_request self) (JObj fields) ->
  dict_get "results" fields = Some (JArr ms) ->
  observed cc ms -> observed_value v ms -> str_of v = None ->
  fst (OONI.get_countries self log) = Ok OONI.common_countries.
Proof.
  intros Hup Hres Hcc Hv Hnv.
  rewrite get_countries_of_try, (get_countries_try_results self log _ _ Hup Hres).
  destruct (OONI.collect_probe_cc ms []) as [cs|e] eqn:Hcol; [|done].
  destruct (collect_probe_cc_members ms [] cs Hcol) as [_ Hobs].
  destruct (Hobs (JStr cc) Hcc) as (y1 & Hy1 & Heq1).
  apply py_eq_string in Heq1 as ->.
  destruct (Hobs v Hv) as (y2 & Hy2 & Heq2).
  pose proof (py_eq_not_string v y2 Hnv Heq2) as Hn2.
  simpl. by rewrite (py_sorted_mixed cs cc y2 Hy1 Hy2 Hn2).
Qed.

(** X7: for measurement records, the result of [get_countries] depends
    only on which country codes occur in the "results" list: two bodies
    with the same observed codes - in another order, or with another
    number of repetitions - give the same result. *)
Theorem get_countries_same_codes (other : OONI.OONIClient) log log'
    fields ms fields' ms' :
  upstream_returns self (countries_request self) (JObj fields) ->
  dict_get "results" fields = Some (JArr ms) ->
  Forall measurement_record ms ->
  upstream_returns other (countries_request other) (JObj fields') ->
  dict_get "results" fields' = Some (JArr ms') ->
  Forall measurement_record ms' ->
  (forall cc, observed cc ms <-> observed cc ms') ->
  fst (OONI.get_countries self log) = fst (OONI.get_countries other log').
Proof.
  intros Hup Hres Hms Hup' Hres' Hms' Hsame.
  rewrite !get_countries_of_try,
    (get_countries_try_results self log _ _ Hup Hres),
    (get_countries_try_results other log' _ _ Hup' Hres').
  destruct (collect_probe_cc_records ms [] Hms (NoDup_nil_2))
    as (strs & Hcol & Hnd & Hmem).
  destruct (collect_probe_cc_records ms' [] Hms' (NoDup_nil_2))
    as (strs' & Hcol' & Hnd' & Hmem').
  change (@nil json) with (JStr <$> @nil string).
  rewrite Hcol, Hcol'. simpl. rewrite !py_sorted_strings.
  assert (Hperm : strs ≡ₚ strs').
  { apply NoDup_Permutation; [done..|].
    intros cc. rewrite Hmem, Hmem', !elem_of_nil. specialize (Hsame cc). tauto. }
  assert (Heq : merge_sort String.le strs = merge_sort String.le strs').
  { apply (Sorted_unique String.le).
    - apply (Sorted_merge_sort String.le).
    - apply (Sorted_merge_sort String.le).
    - by rewrite !merge_sort_Permutation. }
  by rewrite Heq.
Qed.

End countries_more.

Lemma get_countries_malformed_witness :
  let ms := [ JObj [("probe_cc", JStr "US")]; JNull ] in
  let client :=
    OONI.init (fun _ => Ok (OONI.Response 200 "" (Ok (JObj [("results", JArr ms)]))))
              "https://api.ooni.io" in
  fst (OONI.get_countries client []) = Ok OONI.common_countries.
Proof.
  intros ms client.
  apply (get_countries_malformed client [] [("results", JArr ms)] ms).
  - eexists. split; [reflexivity|]. split; reflexivity.
  - reflexivity.
  - reflexivity.
Defined.

Lemma get_countries_mixed_types_witness :
  let ms := [ JObj [("probe_cc", JStr "US")]; JObj [("probe_cc", JNull)] ] in
  let client :=
    OONI.init (fun _ => Ok (OONI.Response 200 "" (Ok (JObj [("results", JArr ms)]))))
              "https://api.ooni.io" in
  fst (OONI.get_countries client []) = Ok OONI.common_countries.
Proof.
  intros ms client.
  apply (get_countries_mixed_types client [] [("results", JArr ms)] ms "US" JNull).
  - eexists. split; [reflexivity|]. split; reflexivity.
  - reflexivity.
  - exists [("probe_cc", JStr "US")]. split; [by left|reflexivity].
  - exists [("probe_cc", JNull)]. split; [right; by left|reflexivity].
  - reflexivity.
Defined.

Lemma get_countries_same_codes_witness :
  let ms := [ JObj [("probe_cc", JStr "US")]; JObj [("probe_cc", JStr "gb")] ] in
  let ms' := [ JObj [("probe_cc", JStr "gb")]; JObj [("probe_cc", JStr "US")];
               JObj [("probe_cc", JStr "gb")] ] in
  let client :=
    OONI.init (fun _ => Ok (OONI.Response 200 "" (Ok (JObj [("results", JArr ms)]))))
              "https://api.ooni.io" in
  let other :=
    OONI.init (fun _ => Ok (OONI.Response 200 "" (Ok (JObj [("results", JArr ms')]))))
              "https://api.ooni.io" in
  fst (OONI.get_countries client []) = fst (OONI.get_countries other []).
Proof.
  intros ms ms' client other.
  apply (get_countries_same_codes client other [] []
           [("results", JArr ms)] ms [("results", JArr ms')] ms').
  - eexists. split; [reflexivity|]. split; reflexivity.
  - reflexivity.
  - repeat constructor; eexists; (split; [reflexivity|]); simpl; eauto.
  - eexists. split; [reflexivity|]. split; reflexivity.
  - reflexivity.
  - repeat constructor; eexists; (split; [reflexivity|]); simpl; eauto.
  - intros cc. unfold observed, ms, ms'. split.
    + intros (f & Hin & Hget).
      repeat (apply elem_of_cons in Hin as [Hin|Hin];
              [injection Hin as ->; eexists; split; [|exact Hget];
               set_solver|]).
      by apply elem_of_nil in Hin.
    + intros (f & Hin & Hget).
      repeat (apply elem_of_cons in Hin as [Hin|Hin];
              [injection Hin as ->; eexists; split; [|exact Hget];
               set_solver|]).
      by apply elem_of_nil in Hin.
Defined.

(** * Further properties of the facade *)

Section facade_more.

Variable parse_int : string -> option Z.
Variable ooni_client : OONI.OONIClient.

(** The handler of the measurements route answers 200 with what the
    client returned, and 500 with the client's message otherwise. *)
Lemma handler_reply test_name probe_cc since until limit offset log :
  fst (Facade.get_measurements ooni_client test_name probe_cc since until
         limit offset log) =
    Ok match fst (OONI.get_measurements ooni_client test_name probe_cc since
                    until limit offset log) with
       | Ok measurements => Facade.Success measurements
       | Raise e =>
           Facade.HTTPException 500
             ("Error fetching measurements: " +:+ exn_str e)
       end /\
  snd (Facade.get_measurements ooni_client test_name probe_cc since until
         limit offset log) =
    snd (OONI.get_measurements ooni_client test_name probe_cc since until
           limit offset log).
Proof.
  unfold Facade.get_measurements, try_except, mbind, io_bind, bind.
  by destruct (OONI.get_measurements _ _ _ _ _ _ _ _) as [[?|?] ?].
Qed.

(** X8: the measurements route never raises and never relays an upstream
    status: for every request its reply has status 200, 422 or 500. *)
Theorem route_measurements_statuses q log :
  exists r,
    fst (Facade.route_measurements parse_int ooni_client q log) = Ok r /\
    (Facade.reply_status r = 200 \/ Facade.reply_status r = 422 \/
     Facade.reply_status r = 500).
Proof.
  unfold Facade.route_measurements.
  destruct (Facade.validate_int _ Facade.limit_decl _) as [limit|];
    [|eexists; split; [reflexivity|auto]].
  destruct (Facade.validate_int _ Facade.offset_decl _) as [offset|];
    [|eexists; split; [reflexivity|auto]].
  rewrite (proj1 (handler_reply _ _ _ _ _ _ _)).
  eexists. split; [reflexivity|].
  destruct (fst (OONI.get_measurements _ _ _ _ _ _ _ _)); simpl; auto.
Qed.

Lemma validated_within decl raw n :
  Facade.validate_int parse_int decl raw = Some n ->
  n = Facade.q_default decl \/ Facade.within decl n = true.
Proof.
  unfold Facade.validate_int. destruct raw as [s|]; [|intros [= <-]; by left].
  destruct (parse_int s) as [m|]; [|done].
  destruct (Facade.within decl m) eqn:Hw; [|done]. intros [= <-]. by right.
Qed.

(** X9: a request that passes validation is forwarded once, with the
    validated [limit] and [offset] as they are (100 and 0 when absent).
    A 2xx answer is relayed as the reply body; an upstream answer with
    another status, and a transport failure, become a reply with status
    500 whose detail names the operation and carries the client's
    message - the upstream status itself is not relayed. *)
Theorem route_measurements_forwards q limit offset log :
  Facade.validate_int parse_int Facade.limit_decl (Facade.raw_limit q)
    = Some limit ->
  Facade.validate_int parse_int Facade.offset_decl (Facade.raw_offset q)
    = Some offset ->
  exists req,
    snd (Facade.route_measurements parse_int ooni_client q log) = log ++ [req]
    /\ OONI.req_params req !! "limit" = Some (OONI.PInt limit)
    /\ OONI.req_params req !! "offset" = Some (OONI.PInt offset)
    /\ let reply := fst (Facade.route_measurements parse_int ooni_client q log) in
       (forall r data,
          OONI.client ooni_client req = Ok r -> is_2xx r = true ->
          OONI.json_body r = Ok data -> reply = Ok (Facade.Success data)) /\
       (forall r,
          OONI.client ooni_client req = Ok r -> is_2xx r = false ->
          reply = Ok (Facade.HTTPException 500
                        ("Error fetching measurements: HTTP error: "
                         +:+ str_of_int (OONI.status_code r) +:+ " - "
                         +:+ OONI.text r))) /\
       (forall msg,
          OONI.client ooni_client req = Raise (RequestError msg) ->
          reply = Ok (Facade.HTTPException 500
                        ("Error fetching measurements: Request error: "
                         +:+ msg))).
Proof.
  intros Hl Ho.
  assert (Hmin : Z.min limit 1000 = limit).
  { destruct (validated_within _ _ _ Hl) as [->|Hw]; [done|].
    unfold Facade.within in Hw. simpl in Hw. lia. }
  unfold Facade.route_measurements. rewrite Hl, Ho.
  eexists. split.
  - rewrite (proj2 (handler_reply _ _ _ _ _ _ _)).
    unfold OONI.get_measurements, try_except, mbind, io_bind, bind,
      OONI.client_get, call.
    destruct (OONI.client ooni_client _) as [r|e]; simpl.
    + unfold OONI.raise_for_status.
      destruct (_ && _); simpl.
      * unfold OONI.response_json, lift.
        destruct (OONI.json_body r) as [?|[]]; reflexivity.
      * reflexivity.
    + destruct e; reflexivity.
  - cbn [OONI.req_params]. rewrite !lookup_set_if_truthy by done.
    split; [by rewrite lookup_insert_ne, lookup_insert_eq, Hmin|].
    split; [by rewrite lookup_insert_eq|].
    cbv zeta. rewrite (proj1 (handler_reply _ _ _ _ _ _ _)).
    unfold OONI.get_measurements, try_except, mbind, io_bind, bind,
      OONI.client_get, call, OONI.raise_for_status, OONI.response_json,
      lift, is_2xx.
    repeat split.
    + intros r data -> -> ->. reflexivity.
    + intros r -> ->. reflexivity.
    + intros msg ->. reflexivity.
Qed.

(** X10: the tests route answers 200 with the hardcoded catalog, for
    every behaviour of the upstream; its 500 branch is never taken. *)
Theorem tests_route_fixed log :
  fst (Facade.get_available_tests ooni_client log) =
    Ok (Facade.Success (JObj [("tests", JArr (JStr <$> OONI.common_tests))])).
Proof.
  unfold Facade.get_available_tests, OONI.get_test_names, try_except, mbind,
    io_bind, bind, OONI.client_get, call.
  destruct (OONI.client ooni_client _) as [r|e]; simpl; [|done].
  unfold OONI.raise_for_status. by destruct (_ && _).
Qed.

(** X11: the countries route answers 200 with the list the client
    returned, for every behaviour of the upstream; its 500 branch is never
    taken. *)
Theorem countries_route_never_fails log :
  exists countries,
    fst (OONI.get_countries ooni_client log) = Ok countries /\
    Facade.get_countries ooni_client log =
      (Ok (Facade.Success (JObj [("countries", JArr (JObj <$> countries))])),
       log ++ [countries_request ooni_client]).
Proof.
  pose proof (get_countries_sends ooni_client log) as Hlog.
  pose proof (get_countries_of_try ooni_client log) as Hres.
  unfold Facade.get_countries, try_except, mbind, io_bind, bind.
  destruct (OONI.get_countries ooni_client log) as [res log'].
  simpl in Hlog, Hres. subst log'.
  destruct (fst (OONI.get_countries_try ooni_client log)) as [[c|]|e];
    subst res; eexists; split; reflexivity.
Qed.

End facade_more.

Lemma route_measurements_forwards_witness :
  let q := {| Facade.raw_test_name := None; Facade.raw_probe_cc := Some "US";
              Facade.raw_since := None; Facade.raw_until := None;
              Facade.raw_limit := Some "25";
              Facade.raw_offset := None |} in
  let ooni_client :=
    OONI.init (fun _ => Ok (OONI.Response 404 "Not Found"
                              (Raise (JSONDecodeError "no body"))))
              "https://api.ooni.io" in
  fst (Facade.route_measurements parse_decimal ooni_client q []) =
    Ok (Facade.HTTPException 500
          "Error fetching measurements: HTTP error: 404 - Not Found").
Proof.
  intros q ooni_client.
  destruct (route_measurements_forwards parse_decimal ooni_client q 25 0 []
              eq_refl eq_refl) as (req & _ & _ & _ & _ & H404 & _).
  exact (H404 (OONI.Response 404 "Not Found" (Raise (JSONDecodeError "no body")))
              eq_refl eq_refl).
Defined.

(** * Further properties of the M-Lab client *)

(** X12: the limiting step is idempotent: a text that went through
    [with_limit] is left as it is by a second pass, whatever the limits,
    so that a LIMIT clause is never appended twice. *)
Theorem with_limit_idempotent query n m :
  MLab.with_limit (MLab.with_limit query n) m = MLab.with_limit query n.
Proof.
  unfold MLab.with_limit at 1. by rewrite with_limit_has_token.
Qed.

Section mlab_more.

Variable self : MLab.MLabClient.

(** X13: [_execute_query] submits one text, returns the rows of a
    successful query as they are, and rebuilds every failure as a plain
    exception: "BigQuery error: ..." for a [GoogleCloudError],
    "Query execution error: ..." for anything else. *)
Theorem execute_query_wraps query limit log :
  let outcome := fst (MLab._execute_query self query limit log) in
  let answer := MLab.run_query (MLab.client self) (MLab.with_limit query limit) in
  snd (MLab._execute_query self query limit log)
    = log ++ [MLab.with_limit query limit] /\
  (forall rows, answer = Ok rows -> outcome = Ok rows) /\
  (forall msg, answer = Raise (GoogleCloudError msg) ->
     outcome = Raise (PyException ("BigQuery error: " +:+ msg))) /\
  (forall e, answer = Raise e ->
     (forall msg, e <> GoogleCloudError msg) ->
     outcome = Raise (PyException ("Query execution error: " +:+ exn_str e))) /\
  (forall e, outcome = Raise e -> exists msg, e = PyException msg).
Proof.
  cbv zeta. rewrite execute_query_log, execute_query_outcome.
  split; [done|]. repeat split.
  - by intros rows ->.
  - by intros msg ->.
  - intros e -> Hne. destruct e; try done. by destruct (Hne msg).
  - intros e. destruct (MLab.run_query _ _) as [rows|e0]; [done|].
    destruct e0; intros [= <-]; eauto.
Qed.

(** The query of [get_measurement_by_id] carries its own LIMIT. *)
Lemma by_id_query_has_limit test_id limit :
  MLab.with_limit (MLab.by_id_query test_id) limit = MLab.by_id_query test_id.
Proof.
  unfold MLab.with_limit, MLab.by_id_query.
  rewrite !upper_app.
  rewrite is_substring_app_r; [done|].
  by rewrite is_substring_app_r.
Qed.

(** X14: [get_measurement_by_id] submits its query with the identifier put
    between the quotes as it is and with nothing appended, whatever the
    identifier; it returns the first row, the empty dict when there is no
    row, and, whenever the query fails, raises
    "Error fetching measurement: ..." around the message of
    [_execute_query]. *)
Theorem get_measurement_by_id_outcome test_id log :
  let text := MLab.by_id_template_0 +:+ test_id +:+ MLab.by_id_template_1 in
  MLab.get_measurement_by_id self test_id log =
    (match MLab.run_query (MLab.client self) text with
     | Ok [] => Ok []
     | Ok (first :: _) => Ok first
     | Raise e =>
         Raise (PyException
                  ("Error fetching measurement: " +:+ execute_query_message e))
     end,
     log ++ [text]).
Proof.
  cbv zeta.
  unfold MLab.get_measurement_by_id, try_except, mbind, io_bind, bind.
  pose proof (execute_query_log self (MLab.by_id_query test_id) 1 log) as Hlog.
  pose proof (execute_query_outcome self (MLab.by_id_query test_id) 1 log)
    as Hout.
  rewrite by_id_query_has_limit in Hlog, Hout.
  destruct (MLab._execute_query self _ 1 log) as [res log'].
  simpl in Hlog, Hout. subst log' res. fold (MLab.by_id_query test_id).
  by destruct (MLab.run_query _ _) as [[|??]|[]].
Qed.

Variable now : Z.
Hypothesis now_in_range : 1 < now <= MLab._MAXORDINAL.

(** The outcome of [get_statistics], in terms of the settled dates. *)
Lemma statistics_outcome start_date end_date cc log :
  fst (MLab.get_statistics self now start_date end_date cc log) =
    let query :=
      MLab.stats_query (fst (settled_dates now start_date end_date))
                       (snd (settled_dates now start_date end_date)) cc in
    match MLab.run_query (MLab.client self) (MLab.with_limit query 1) with
    | Ok [] => Ok []
    | Ok (first :: _) => Ok first
    | Raise e =>
        Raise (PyException
                 ("Error fetching statistics: " +:+
                  match e with
                  | GoogleCloudError msg => "BigQuery error: " +:+ msg
                  | _ => "Query execution error: " +:+ exn_str e
                  end))
    end.
Proof.
  unfold MLab.get_statistics.
  rewrite (start_date_settled now now_in_range start_date end_date).
  unfold mbind at 1, io_bind, bind, mret, io_ret, ret.
  rewrite (end_date_settled now start_date end_date).
  unfold try_except, mbind, io_bind, bind, MLab._execute_query, try_except,
    call.
  cbv zeta.
  destruct (MLab.run_query _ _) as [[|first rows]|e]; [done..|].
  by destruct e.
Qed.

Lemma limit_free_stats_query start stop cc :
  limit_free start -> limit_free stop -> plain_input cc ->
  limit_free (MLab.stats_query start stop cc).
Proof.
  intros Hs He Hcc. unfold MLab.stats_query.
  apply limit_free_country_filter; [done|].
  apply limit_free_app_ends; [by vm_compute| |by vm_compute].
  apply limit_free_app_starts; [done| |by rewrite upper_app].
  apply limit_free_app_ends; [by vm_compute| |by vm_compute].
  apply limit_free_app_starts; [done|by vm_compute|by vm_compute].
Qed.

(** X15: [get_statistics] submits one text, its query after the limiting
    step with limit 1.  It returns the first row of the answer, the empty
    dict - not an error - when the answer has no row, and, whenever the
    query fails, raises "Error fetching statistics: ..." around the
    message of [_execute_query].  For ASCII dates and country code without
    a LIMIT token the text is the query followed by " LIMIT 1", the only
    LIMIT in it. *)
Theorem get_statistics_outcome start_date end_date cc log :
  let query :=
    MLab.stats_query (fst (settled_dates now start_date end_date))
                     (snd (settled_dates now start_date end_date)) cc in
  let text := MLab.with_limit query 1 in
  MLab.get_statistics self now start_date end_date cc log =
    (match MLab.run_query (MLab.client self) text with
     | Ok [] => Ok []
     | Ok (first :: _) => Ok first
     | Raise e =>
         Raise (PyException
                  ("Error fetching statistics: " +:+ execute_query_message e))
     end,
     log ++ [text]) /\
  (plain_input start_date -> plain_input end_date -> plain_input cc ->
   text = query +:+ " LIMIT 1" /\
   occurrences "LIMIT" (upper query) = 0%nat /\
   occurrences "LIMIT" (upper text) = 1%nat).
Proof.
  cbv zeta. split.
  - rewrite (surjective_pairing (MLab.get_statistics _ _ _ _ _ _)).
    rewrite (statistics_log self now now_in_range), statistics_outcome.
    cbv zeta. f_equal;
      by destruct (MLab.run_query _ _) as [[|??]|[]].
  - intros Hs He Hcc.
    destruct (limit_free_settled now _ _ Hs He) as [Hstart Hstop].
    pose proof (limit_free_stats_query _ _ cc Hstart Hstop Hcc) as Hfree.
    destruct (appended_limit_once _ 1 Hfree) as [Happ Hone].
    split; [exact Happ|]. split; [exact Hfree|exact Hone].
Qed.

(** X16: [get_ndt_measurements] submits one text, its query after the
    limiting step.  When the query succeeds it returns the dict with the
    dataset name, the rows of the answer in their order under "results",
    their number under "count" and the settled dates under "date_range";
    whenever the query fails it raises
    "Error fetching NDT measurements: ..." around the message of
    [_execute_query]. *)
Theorem get_ndt_measurements_result start_date end_date cc mn mx limit log :
  let start := fst (settled_dates now start_date end_date) in
  let stop := snd (settled_dates now start_date end_date) in
  let text := MLab.with_limit (MLab.ndt_query start stop cc mn mx) limit in
  MLab.get_ndt_measurements self now start_date end_date cc mn mx limit log =
    (match MLab.run_query (MLab.client self) text with
     | Ok rows =>
         Ok [ ("dataset", JStr "ndt.unified_downloads");
              ("count", JInt (Z.of_nat (length rows)));
              ("date_range", JObj [("start", JStr start); ("end", JStr stop)]);
              ("results", JArr (JObj <$> rows)) ]
     | Raise e =>
         Raise (PyException
                  ("Error fetching NDT measurements: "
                   +:+ execute_query_message e))
     end,
     log ++ [text]).
Proof.
  cbv zeta. rewrite (ndt_outcome self now now_in_range). cbv zeta.
  f_equal; by destruct (MLab.run_query _ _) as [rows|[]].
Qed.

Lemma occurrences_countries_query yesterday limit :
  no_L yesterday = true ->
  occurrences "LIMIT" (upper (MLab.countries_query yesterday limit)) = 1%nat.
Proof.
  intros Hy. unfold MLab.countries_query.
  rewrite upper_app, occurrences_app_ends_clear by (by vm_compute).
  rewrite upper_app, occurrences_app_starts_clear
    by (by rewrite upper_app).
  rewrite (no_L_limit_free _ Hy).
  rewrite upper_app, occurrences_app_ends_clear by (by vm_compute).
  rewrite upper_app, occurrences_app_starts_clear by (by vm_compute).
  rewrite (no_L_limit_free _ (no_L_str_of_int limit)).
  by vm_compute.
Qed.

(** X17: with the clock in range, [get_available_countries] never raises:
    it returns the rows of the query as they are, or its fallback list
    when the query fails.  The text it submits is its own query, with the
    caller's limit and nothing appended, and has exactly one LIMIT. *)
Theorem get_available_countries_total limit log :
  let query := MLab.countries_query (MLab.strftime_Ymd (now - 1)) limit in
  MLab.get_available_countries self now limit log =
    (Ok match MLab.run_query (MLab.client self) query with
        | Ok rows => rows
        | Raise _ => MLab.fallback_countries
        end,
     log ++ [query]) /\
  occurrences "LIMIT" (upper query) = 1%nat.
Proof.
  cbv zeta. split; [|apply occurrences_countries_query, no_L_strftime].
  unfold MLab.get_available_countries, mbind at 1, io_bind, bind, lift.
  rewrite (yesterday_of_ok _ now_in_range).
  unfold try_except, mbind, io_bind, bind.
  pose proof (execute_query_log self
                (MLab.countries_query (MLab.strftime_Ymd (now - 1)) limit)
                limit log) as Hlog.
  pose proof (execute_query_outcome self
                (MLab.countries_query (MLab.strftime_Ymd (now - 1)) limit)
                limit log) as Hout.
  rewrite countries_query_has_limit in Hlog, Hout.
  destruct (MLab._execute_query self _ limit log) as [res log'].
  simpl in Hlog, Hout. subst log' res.
  by destruct (MLab.run_query _ _) as [rows|[]].
Qed.

End mlab_more.

Section country_code.

Lemma truthy_upper cc : truthy (Some (upper cc)) = truthy (Some cc).
Proof. by destruct cc. Qed.

Lemma add_country_filter_upper cc query :
  MLab.add_country_filter (Some (upper cc)) query
    = MLab.add_country_filter (Some cc) query.
Proof.
  unfold MLab.add_country_filter.
  by rewrite truthy_upper, upper_idemp.
Qed.

(** X18: the country filter does not depend on the letter case of the
    country code: [get_ndt_measurements] and [get_statistics] do the same
    - submit the same text, return the same value - for a code and for
    its upper-cased form. *)
Theorem country_code_case_insensitive self now start_date end_date cc mn mx
    limit log :
  MLab.get_ndt_measurements self now start_date end_date (Some (upper cc))
    mn mx limit log
  = MLab.get_ndt_measurements self now start_date end_date (Some cc)
      mn mx limit log /\
  MLab.get_statistics self now start_date end_date (Some (upper cc)) log
  = MLab.get_statistics self now start_date end_date (Some cc) log.
Proof.
  split.
  - unfold MLab.get_ndt_measurements, MLab.ndt_query, mbind, io_bind, bind,
      lift, mret, io_ret, ret.
    destruct (negb (truthy start_date)); [destruct (MLab.yesterday_of now)|];
      by rewrite ?add_country_filter_upper.
  - unfold MLab.get_statistics, MLab.stats_query, mbind, io_bind, bind,
      lift, mret, io_ret, ret.
    destruct (negb (truthy start_date)); [destruct (MLab.yesterday_of now)|];
      by rewrite ?add_country_filter_upper.
Qed.

(** X19: an empty string counts as an argument that is not given: an
    empty start date, end date or country code makes
    [get_ndt_measurements] and [get_statistics] do what they do
    without it. *)
Theorem empty_arguments_absent self now start_date end_date cc mn mx limit
    log :
  MLab.get_ndt_measurements self now (Some "") end_date cc mn mx limit log
  = MLab.get_ndt_measurements self now None end_date cc mn mx limit log /\
  MLab.get_ndt_measurements self now start_date (Some "") cc mn mx limit log
  = MLab.get_ndt_measurements self now start_date None cc mn mx limit log /\
  MLab.get_ndt_measurements self now start_date end_date (Some "") mn mx
    limit log
  = MLab.get_ndt_measurements self now start_date end_date None mn mx
      limit log /\
  MLab.get_statistics self now (Some "") end_date cc log
  = MLab.get_statistics self now None end_date cc log /\
  MLab.get_statistics self now start_date (Some "") cc log
  = MLab.get_statistics self now start_date None cc log /\
  MLab.get_statistics self now start_date end_date (Some "") log
  = MLab.get_statistics self now start_date end_date None log.
Proof. repeat split; reflexivity. Qed.

End country_code.

Lemma execute_query_wraps_witness :
  let self := {| MLab.project_id := None; MLab.credentials_path := None;
                 MLab.client :=
                   {| MLab.run_query := fun _ =>
                        Raise (GoogleCloudError "403 Access Denied") |} |} in
  fst (MLab._execute_query self "SELECT 1" 10 [])
    = Raise (PyException "BigQuery error: 403 Access Denied").
Proof.
  intros self.
  exact (proj1 (proj2 (proj2 (execute_query_wraps self "SELECT 1" 10 [])))
           "403 Access Denied" eq_refl).
Defined.

Lemma get_statistics_outcome_witness :
  let self := {| MLab.project_id := None; MLab.credentials_path := None;
                 MLab.client := {| MLab.run_query := fun _ => Ok [] |} |} in
  let query := MLab.stats_query "2024-02-29" "2024-02-29" (Some "us") in
  MLab.get_statistics self 738946 None None (Some "us") []
    = (Ok [], [query +:+ " LIMIT 1"]) /\
  occurrences "LIMIT" (upper (query +:+ " LIMIT 1")) = 1%nat.
Proof.
  intros self query.
  assert (Hnow : 1 < 738946 <= MLab._MAXORDINAL)
    by (unfold MLab._MAXORDINAL; lia).
  destruct (get_statistics_outcome self 738946 Hnow None None (Some "us") [])
    as [Hrun Hplain].
  destruct (Hplain I I (conj eq_refl eq_refl)) as (Htext & _ & Hone).
  change (MLab.stats_query _ _ (Some "us")) with query in Hrun, Htext, Hone.
  rewrite Htext in Hrun, Hone. split; [exact Hrun|exact Hone].
Defined.

Lemma get_ndt_measurements_result_witness :
  let self := {| MLab.project_id := None; MLab.credentials_path := None;
                 MLab.client :=
                   {| MLab.run_query := fun _ =>
                        Raise (GoogleCloudError "403 Access Denied") |} |} in
  fst (MLab.get_ndt_measurements self 738946 None None None None None 5 [])
    = Raise (PyException
               "Error fetching NDT measurements: BigQuery error: 403 Access Denied").
Proof.
  intros self.
  assert (Hnow : 1 < 738946 <= MLab._MAXORDINAL)
    by (unfold MLab._MAXORDINAL; lia).
  by rewrite (get_ndt_measurements_result self 738946 Hnow).
Defined.

Lemma get_available_countries_total_witness :
  let self := {| MLab.project_id := None; MLab.credentials_path := None;
                 MLab.client :=
                   {| MLab.run_query := fun _ =>
                        Ok [[("country_code", JStr "AT");
                             ("country_name", JStr "Austria")]] |} |} in
  fst (MLab.get_available_countries self 738946 10 [])
    = Ok [[("country_code", JStr "AT"); ("country_name", JStr "Austria")]] /\
  occurrences "LIMIT"
    (upper (MLab.countries_query (MLab.strftime_Ymd (738946 - 1)) 10)) = 1%nat.
Proof.
  intros self.
  assert (Hnow : 1 < 738946 <= MLab._MAXORDINAL)
    by (unfold MLab._MAXORDINAL; lia).
  destruct (get_available_countries_total self 738946 Hnow 10 []) as [Hrun Hone].
  split; [by rewrite Hrun|exact Hone].
Defined.
